(** * STM32 DCMIPP pixel processor: negotiation core

    Shallow embedding of
    [drivers/media/platform/st/stm32/stm32-dcmipp/dcmipp-pixelproc.c].

    C [unsigned int] / [u32] values are carried as [Z] and every
    arithmetic operation that can leave the 32-bit range has its
    wrap-around written out with [u32].  A division whose divisor is zero
    traps in the kernel; the embedding returns [None] there.  The device
    structure is threaded explicitly, register accesses are appended to a
    trace kept in the device. *)

From Stdlib Require Import ZArith List Bool Lia.
From Stdlib Require String Ascii.
Import ListNotations.
Open Scope Z_scope.

(** ** Machine arithmetic *)

Definition u32 (x : Z) : Z := x mod 2 ^ 32.

(** C unsigned division: a zero divisor is a trap. *)
Definition udiv (a b : Z) : option Z :=
  if b =? 0 then None else Some (a / b).

Definition obind {A B : Type} (o : option A) (k : A -> option B) : option B :=
  match o with
  | Some a => k a
  | None => None
  end.

Notation "x <- e ;; k" := (obind e (fun x => k))
  (at level 61, e at next level, right associativity).

(** [clamp_t(u32, val, lo, hi)] is [min_t(u32, max_t(u32, val, lo), hi)]. *)
Definition clamp_t_u32 (val lo hi : Z) : Z :=
  Z.min (Z.max (u32 val) (u32 lo)) (u32 hi).

(** ** Error numbers *)

Definition EBUSY : Z := 16.
Definition EINVAL : Z := 22.

(** ** Constants of the V4L2 user API used by the driver *)

Definition MEDIA_BUS_FMT_RGB565_2X8_LE : Z := 0x1008.
Definition MEDIA_BUS_FMT_RGB888_1X24 : Z := 0x100a.
Definition MEDIA_BUS_FMT_BGR888_1X24 : Z := 0x1013.
Definition MEDIA_BUS_FMT_Y8_1X8 : Z := 0x2001.
Definition MEDIA_BUS_FMT_UYVY8_1_5X8 : Z := 0x2002.
Definition MEDIA_BUS_FMT_VYUY8_1_5X8 : Z := 0x2003.
Definition MEDIA_BUS_FMT_YUYV8_1_5X8 : Z := 0x2004.
Definition MEDIA_BUS_FMT_YVYU8_1_5X8 : Z := 0x2005.
Definition MEDIA_BUS_FMT_UYVY8_2X8 : Z := 0x2006.
Definition MEDIA_BUS_FMT_VYUY8_2X8 : Z := 0x2007.
Definition MEDIA_BUS_FMT_YUYV8_2X8 : Z := 0x2008.
Definition MEDIA_BUS_FMT_YVYU8_2X8 : Z := 0x2009.
Definition MEDIA_BUS_FMT_YUYV8_1X16 : Z := 0x2011.
Definition MEDIA_BUS_FMT_YVYU8_1X16 : Z := 0x2012.
Definition MEDIA_BUS_FMT_YUV8_1X24 : Z := 0x2025.
Definition MEDIA_BUS_FMT_SBGGR8_1X8 : Z := 0x3001.

Definition V4L2_SUBDEV_FORMAT_TRY : Z := 0.
Definition V4L2_SUBDEV_FORMAT_ACTIVE : Z := 1.

Definition V4L2_SEL_TGT_CROP : Z := 0x0000.
Definition V4L2_SEL_TGT_CROP_DEFAULT : Z := 0x0001.
Definition V4L2_SEL_TGT_CROP_BOUNDS : Z := 0x0002.
Definition V4L2_SEL_TGT_COMPOSE : Z := 0x0100.

Definition V4L2_FIELD_ANY : Z := 0.
Definition V4L2_FIELD_NONE : Z := 1.
Definition V4L2_FIELD_ALTERNATE : Z := 7.

Definition V4L2_COLORSPACE_REC709 : Z := 3.
Definition V4L2_YCBCR_ENC_DEFAULT : Z := 0.
Definition V4L2_QUANTIZATION_DEFAULT : Z := 0.
Definition V4L2_XFER_FUNC_DEFAULT : Z := 0.

(** ** Data model *)

(** The entity is registered with exactly two pads, index 0 (sink) and
    index 1 (source); the subdev core refuses any other index before a
    pad operation of the driver runs. *)
Inductive pad : Type :=
| PAD_SINK
| PAD_SRC.

Definition pad_index (p : pad) : Z :=
  match p with
  | PAD_SINK => 0
  | PAD_SRC => 1
  end.

(** [#define IS_SINK(pad) (!(pad))] and [#define IS_SRC(pad) ((pad))]. *)
Definition IS_SINK (p : pad) : bool := pad_index p =? 0.
Definition IS_SRC (p : pad) : bool := negb (pad_index p =? 0).

Record v4l2_mbus_framefmt : Type := mk_framefmt {
  width : Z;
  height : Z;
  code : Z;
  field : Z;
  colorspace : Z;
  ycbcr_enc : Z;
  quantization : Z;
  xfer_func : Z
}.

Record v4l2_rect : Type := mk_rect {
  left : Z;
  top : Z;
  r_width : Z;
  r_height : Z
}.

Record v4l2_fract : Type := mk_fract {
  numerator : Z;
  denominator : Z
}.

Definition fmt_with_code (f : v4l2_mbus_framefmt) (c : Z) : v4l2_mbus_framefmt :=
  mk_framefmt (width f) (height f) c (field f) (colorspace f) (ycbcr_enc f)
    (quantization f) (xfer_func f).

Definition fmt_with_size (f : v4l2_mbus_framefmt) (w h : Z) : v4l2_mbus_framefmt :=
  mk_framefmt w h (code f) (field f) (colorspace f) (ycbcr_enc f)
    (quantization f) (xfer_func f).

Definition fmt_with_field (f : v4l2_mbus_framefmt) (fl : Z) : v4l2_mbus_framefmt :=
  mk_framefmt (width f) (height f) (code f) fl (colorspace f) (ycbcr_enc f)
    (quantization f) (xfer_func f).

(** ** Pixel format catalogue *)

Record dcmipp_pixelproc_pix_map : Type := PIXMAP_MBUS_PPCR_SWAPUV {
  pm_code : Z;
  ppcr_fmt : Z;
  swap_uv : Z
}.

Definition DCMIPP_PxPPCR_FORMAT_RGB888_OR_YUV444_1BUFFER : Z := 0x0.
Definition DCMIPP_PxPPCR_FORMAT_RGB565 : Z := 0x1.
Definition DCMIPP_PxPPCR_FORMAT_Y8 : Z := 0x4.
Definition DCMIPP_PxPPCR_FORMAT_YUYV : Z := 0x6.
Definition DCMIPP_P1PPCR_FORMAT_NV61 : Z := 0x7.
Definition DCMIPP_P1PPCR_FORMAT_NV21 : Z := 0x8.
Definition DCMIPP_P1PPCR_FORMAT_YV12 : Z := 0x9.
Definition DCMIPP_PxPPCR_FORMAT_UYVY : Z := 0xa.
Definition DCMIPP_PxPPCR_SWAPRB : Z := 2 ^ 4.

Definition dcmipp_pixelproc_sink_pix_map_list : list dcmipp_pixelproc_pix_map :=
  [ PIXMAP_MBUS_PPCR_SWAPUV MEDIA_BUS_FMT_RGB888_1X24 0 0;
    PIXMAP_MBUS_PPCR_SWAPUV MEDIA_BUS_FMT_YUV8_1X24 0 0 ].

Definition dcmipp_pixelproc_src_pix_map_list : list dcmipp_pixelproc_pix_map :=
  [ PIXMAP_MBUS_PPCR_SWAPUV MEDIA_BUS_FMT_RGB888_1X24
      DCMIPP_PxPPCR_FORMAT_RGB888_OR_YUV444_1BUFFER 1;
    PIXMAP_MBUS_PPCR_SWAPUV MEDIA_BUS_FMT_BGR888_1X24
      DCMIPP_PxPPCR_FORMAT_RGB888_OR_YUV444_1BUFFER 0;
    PIXMAP_MBUS_PPCR_SWAPUV MEDIA_BUS_FMT_RGB565_2X8_LE DCMIPP_PxPPCR_FORMAT_RGB565 0;
    PIXMAP_MBUS_PPCR_SWAPUV MEDIA_BUS_FMT_YUYV8_2X8 DCMIPP_PxPPCR_FORMAT_YUYV 0;
    PIXMAP_MBUS_PPCR_SWAPUV MEDIA_BUS_FMT_YVYU8_2X8 DCMIPP_PxPPCR_FORMAT_YUYV 1;
    PIXMAP_MBUS_PPCR_SWAPUV MEDIA_BUS_FMT_UYVY8_2X8 DCMIPP_PxPPCR_FORMAT_UYVY 0;
    PIXMAP_MBUS_PPCR_SWAPUV MEDIA_BUS_FMT_VYUY8_2X8 DCMIPP_PxPPCR_FORMAT_UYVY 1;
    PIXMAP_MBUS_PPCR_SWAPUV MEDIA_BUS_FMT_Y8_1X8 DCMIPP_PxPPCR_FORMAT_Y8 0;
    PIXMAP_MBUS_PPCR_SWAPUV MEDIA_BUS_FMT_YUYV8_1_5X8 DCMIPP_P1PPCR_FORMAT_NV21 0;
    PIXMAP_MBUS_PPCR_SWAPUV MEDIA_BUS_FMT_YVYU8_1_5X8 DCMIPP_P1PPCR_FORMAT_NV21 1;
    PIXMAP_MBUS_PPCR_SWAPUV MEDIA_BUS_FMT_YUYV8_1X16 DCMIPP_P1PPCR_FORMAT_NV61 0;
    PIXMAP_MBUS_PPCR_SWAPUV MEDIA_BUS_FMT_YVYU8_1X16 DCMIPP_P1PPCR_FORMAT_NV61 1;
    PIXMAP_MBUS_PPCR_SWAPUV MEDIA_BUS_FMT_UYVY8_1_5X8 DCMIPP_P1PPCR_FORMAT_YV12 0;
    PIXMAP_MBUS_PPCR_SWAPUV MEDIA_BUS_FMT_VYUY8_1_5X8 DCMIPP_P1PPCR_FORMAT_YV12 1 ].

Definition pix_map_list (p : pad) : list dcmipp_pixelproc_pix_map :=
  if IS_SRC p then dcmipp_pixelproc_src_pix_map_list
  else dcmipp_pixelproc_sink_pix_map_list.

Definition dcmipp_pixelproc_pix_map_by_index (i : Z) (p : pad)
  : option dcmipp_pixelproc_pix_map :=
  let l := pix_map_list p in
  if Z.of_nat (length l) <=? i then None else nth_error l (Z.to_nat i).

Definition dcmipp_pixelproc_pix_map_by_code (c : Z) (p : pad)
  : option dcmipp_pixelproc_pix_map :=
  find (fun e => pm_code e =? c) (pix_map_list p).

Definition PIXELPROC_MEDIA_BUS_SRC_FMT_DEFAULT : Z := MEDIA_BUS_FMT_RGB565_2X8_LE.
Definition PIXELPROC_MEDIA_BUS_SINK_FMT_DEFAULT : Z := MEDIA_BUS_FMT_RGB888_1X24.

Definition DCMIPP_FMT_WIDTH_DEFAULT : Z := 640.
Definition DCMIPP_FMT_HEIGHT_DEFAULT : Z := 480.

Definition fmt_default : v4l2_mbus_framefmt :=
  mk_framefmt DCMIPP_FMT_WIDTH_DEFAULT DCMIPP_FMT_HEIGHT_DEFAULT
    PIXELPROC_MEDIA_BUS_SINK_FMT_DEFAULT V4L2_FIELD_NONE
    V4L2_COLORSPACE_REC709 V4L2_YCBCR_ENC_DEFAULT
    V4L2_QUANTIZATION_DEFAULT V4L2_XFER_FUNC_DEFAULT.

Definition DCMIPP_MAX_DECIMATION_RATIO : Z := 8.
Definition DCMIPP_MAX_DOWNSIZE_RATIO : Z := 8.
Definition DCMIPP_MAX_DOWNSCALE_RATIO : Z := 64.

(** ** Device and try state *)

(** Register accesses, in program order.  [reg_write], [reg_set] and
    [reg_clear] are the bus helpers of [dcmipp-common.h]; the embedding
    records which one was called, on which offset and with which value. *)
Inductive reg_access : Type :=
| reg_write (reg val : Z)
| reg_set (reg mask : Z)
| reg_clear (reg mask : Z).

Record dcmipp_pixelproc_device : Type := mk_pixelproc {
  sink_fmt : v4l2_mbus_framefmt;
  src_fmt : v4l2_mbus_framefmt;
  streaming : bool;
  regs : list reg_access;
  pipe_id : Z;
  src_interval : v4l2_fract;
  sink_interval : v4l2_fract;
  frate : Z;
  src_code : Z;
  crop : v4l2_rect;
  compose : v4l2_rect
}.

Definition set_sink_fmt (d : dcmipp_pixelproc_device) (f : v4l2_mbus_framefmt) :=
  mk_pixelproc f (src_fmt d) (streaming d) (regs d) (pipe_id d) (src_interval d)
    (sink_interval d) (frate d) (src_code d) (crop d) (compose d).

Definition set_src_fmt (d : dcmipp_pixelproc_device) (f : v4l2_mbus_framefmt) :=
  mk_pixelproc (sink_fmt d) f (streaming d) (regs d) (pipe_id d) (src_interval d)
    (sink_interval d) (frate d) (src_code d) (crop d) (compose d).

Definition set_crop (d : dcmipp_pixelproc_device) (r : v4l2_rect) :=
  mk_pixelproc (sink_fmt d) (src_fmt d) (streaming d) (regs d) (pipe_id d)
    (src_interval d) (sink_interval d) (frate d) (src_code d) r (compose d).

Definition set_compose (d : dcmipp_pixelproc_device) (r : v4l2_rect) :=
  mk_pixelproc (sink_fmt d) (src_fmt d) (streaming d) (regs d) (pipe_id d)
    (src_interval d) (sink_interval d) (frate d) (src_code d) (crop d) r.

Definition set_frate (d : dcmipp_pixelproc_device) (c : Z) :=
  mk_pixelproc (sink_fmt d) (src_fmt d) (streaming d) (regs d) (pipe_id d)
    (src_interval d) (sink_interval d) c (src_code d) (crop d) (compose d).

Definition set_sink_interval (d : dcmipp_pixelproc_device) (i : v4l2_fract) :=
  mk_pixelproc (sink_fmt d) (src_fmt d) (streaming d) (regs d) (pipe_id d)
    (src_interval d) i (frate d) (src_code d) (crop d) (compose d).

Definition set_src_interval (d : dcmipp_pixelproc_device) (i : v4l2_fract) :=
  mk_pixelproc (sink_fmt d) (src_fmt d) (streaming d) (regs d) (pipe_id d)
    i (sink_interval d) (frate d) (src_code d) (crop d) (compose d).

(** A register access appends to the trace and touches nothing else. *)
Definition reg_do (d : dcmipp_pixelproc_device) (a : reg_access) :=
  mk_pixelproc (sink_fmt d) (src_fmt d) (streaming d) (regs d ++ [a]) (pipe_id d)
    (src_interval d) (sink_interval d) (frate d) (src_code d) (crop d) (compose d).

(** Per-pad try configuration of [struct v4l2_subdev_state]. *)
Record v4l2_subdev_pad_config : Type := mk_pad_config {
  try_fmt : v4l2_mbus_framefmt;
  try_crop : v4l2_rect;
  try_compose : v4l2_rect
}.

Record v4l2_subdev_state : Type := mk_sd_state {
  pad_sink : v4l2_subdev_pad_config;
  pad_src : v4l2_subdev_pad_config
}.

Definition pads (st : v4l2_subdev_state) (p : pad) : v4l2_subdev_pad_config :=
  match p with
  | PAD_SINK => pad_sink st
  | PAD_SRC => pad_src st
  end.

Definition set_pads (st : v4l2_subdev_state) (p : pad) (c : v4l2_subdev_pad_config) :=
  match p with
  | PAD_SINK => mk_sd_state c (pad_src st)
  | PAD_SRC => mk_sd_state (pad_sink st) c
  end.

Definition v4l2_subdev_get_try_format (st : v4l2_subdev_state) (p : pad) :=
  try_fmt (pads st p).
Definition v4l2_subdev_get_try_crop (st : v4l2_subdev_state) (p : pad) :=
  try_crop (pads st p).
Definition v4l2_subdev_get_try_compose (st : v4l2_subdev_state) (p : pad) :=
  try_compose (pads st p).

Definition set_try_format (st : v4l2_subdev_state) (p : pad) (f : v4l2_mbus_framefmt) :=
  set_pads st p (mk_pad_config f (try_crop (pads st p)) (try_compose (pads st p))).
Definition set_try_crop (st : v4l2_subdev_state) (p : pad) (r : v4l2_rect) :=
  set_pads st p (mk_pad_config (try_fmt (pads st p)) r (try_compose (pads st p))).
Definition set_try_compose (st : v4l2_subdev_state) (p : pad) (r : v4l2_rect) :=
  set_pads st p (mk_pad_config (try_fmt (pads st p)) (try_crop (pads st p)) r).

(** Result of the colour conversion planner of [dcmipp-colorconv.h]. *)
Record dcmipp_colorconv_config : Type := mk_ccconf {
  conv_matrix : list Z;
  clamping : bool;
  clamping_as_rgb : bool;
  cc_enable : bool
}.

(** ** Collaborators outside this file

    Everything the driver calls but does not define: the frame size limits
    of [dcmipp-common.h], the colorimetry clamp of [dcmipp-common.c], the
    rectangle helpers of [media/v4l2-rect.h], the colour conversion planner
    and the control framework.  The operations below are written against
    this interface and the theorems hold for every implementation of it.
    [v4l2_ctrl_handler_setup] reaches the device only through
    [dcmipp_pixelproc_s_ctrl], which issues register writes and nothing
    else, so it is given the device and answers with an error number and
    the register accesses it made. *)
Class dcmipp_platform : Type := {
  DCMIPP_FRAME_MIN_WIDTH : Z;
  DCMIPP_FRAME_MAX_WIDTH : Z;
  DCMIPP_FRAME_MIN_HEIGHT : Z;
  DCMIPP_FRAME_MAX_HEIGHT : Z;
  dcmipp_colorimetry_clamp : v4l2_mbus_framefmt -> v4l2_mbus_framefmt;
  v4l2_rect_set_min_size : v4l2_rect -> v4l2_rect -> v4l2_rect;
  v4l2_rect_map_inside : v4l2_rect -> v4l2_rect -> v4l2_rect;
  dcmipp_colorconv_configure :
    v4l2_mbus_framefmt -> v4l2_mbus_framefmt -> Z * dcmipp_colorconv_config;
  v4l2_ctrl_handler_setup : dcmipp_pixelproc_device -> Z * list reg_access
}.

(** ** Register map *)

Definition BIT (n : Z) : Z := Z.shiftl 1 n.
Definition GENMASK (h l : Z) : Z := Z.shiftl (Z.ones (h - l + 1)) l.

Definition DCMIPP_PxFCTCR (id : Z) : Z := if id =? 1 then 0x900 else 0xD00.
Definition DCMIPP_PxFCTCR_FRATE_MASK : Z := GENMASK 1 0.
Definition DCMIPP_PxCRSTR (id : Z) : Z := if id =? 1 then 0x904 else 0xD04.
Definition DCMIPP_PxCRSTR_HSTART_SHIFT : Z := 0.
Definition DCMIPP_PxCRSTR_VSTART_SHIFT : Z := 16.
Definition DCMIPP_PxCRSZR (id : Z) : Z := if id =? 1 then 0x908 else 0xD08.
Definition DCMIPP_PxCRSZR_ENABLE : Z := BIT 31.
Definition DCMIPP_PxCRSZR_HSIZE_SHIFT : Z := 0.
Definition DCMIPP_PxCRSZR_VSIZE_SHIFT : Z := 16.
Definition DCMIPP_PxDCCR (id : Z) : Z := if id =? 1 then 0x90C else 0xD0C.
Definition DCMIPP_PxDCCR_ENABLE : Z := BIT 0.
Definition DCMIPP_PxDCCR_HDEC_SHIFT : Z := 1.
Definition DCMIPP_PxDCCR_VDEC_SHIFT : Z := 3.
Definition DCMIPP_PxDSCR (id : Z) : Z := if id =? 1 then 0x910 else 0xD10.
Definition DCMIPP_PxDSCR_HDIV_SHIFT : Z := 0.
Definition DCMIPP_PxDSCR_VDIV_SHIFT : Z := 16.
Definition DCMIPP_PxDSCR_ENABLE : Z := BIT 31.
Definition DCMIPP_PxDSRTIOR (id : Z) : Z := if id =? 1 then 0x914 else 0xD14.
Definition DCMIPP_PxDSRTIOR_HRATIO_SHIFT : Z := 0.
Definition DCMIPP_PxDSRTIOR_VRATIO_SHIFT : Z := 16.
Definition DCMIPP_PxDSSZR (id : Z) : Z := if id =? 1 then 0x918 else 0xD18.
Definition DCMIPP_PxDSSZR_HSIZE_SHIFT : Z := 0.
Definition DCMIPP_PxDSSZR_VSIZE_SHIFT : Z := 16.
Definition DCMIPP_P1YUVCR : Z := 0x980.
Definition DCMIPP_P1YUVCR_ENABLE : Z := BIT 0.
Definition DCMIPP_P1YUVCR_TYPE_RGB : Z := BIT 1.
Definition DCMIPP_P1YUVCR_CLAMP : Z := BIT 2.
Definition DCMIPP_P1YUVRR1 : Z := 0x984.
Definition DCMIPP_PxPPCR (id : Z) : Z := if id =? 1 then 0x9C0 else 0xDC0.

(** ** Scaler arithmetic of [dcmipp_pixelproc_set_downscale] *)

Definition DCMIPP_PIXELPROC_HVRATIO_CONS : Z := 8192.
Definition DCMIPP_PIXELPROC_HVRATIO_MAX : Z := 65535.
Definition DCMIPP_PIXELPROC_HVDIV_CONS : Z := 1024.
Definition DCMIPP_PIXELPROC_HVDIV_MAX : Z := 1023.

(** The local variables of [dcmipp_pixelproc_set_downscale] once the
    arithmetic is done. *)
Record downscale : Type := mk_downscale {
  hdec : Z;
  vdec : Z;
  hratio : Z;
  vratio : Z;
  hdiv : Z;
  vdiv : Z
}.

(** [while (limit < post_dec) { dec++; post_dec /= 2; }] with [limit] the
    already evaluated [compose * DCMIPP_MAX_DOWNSIZE_RATIO].  [None] only
    when the fuel is used up with the loop condition still true. *)
Fixpoint decimation_loop (fuel : nat) (limit dec post_dec : Z) : option (Z * Z) :=
  if limit <? post_dec then
    match fuel with
    | O => None
    | S fuel' => decimation_loop fuel' limit (u32 (dec + 1)) (post_dec / 2)
    end
  else Some (dec, post_dec).

(** A 32-bit value reaches zero after at most 32 halvings. *)
Definition decimation (limit post_dec : Z) : option (Z * Z) :=
  decimation_loop 32 limit 0 post_dec.

Definition clamp_max (v m : Z) : Z := if m <? v then m else v.

Definition downscale_factors (crop_w crop_h compose_w compose_h : Z)
  : option downscale :=
  h <- decimation (u32 (compose_w * DCMIPP_MAX_DOWNSIZE_RATIO)) crop_w ;;
  v <- decimation (u32 (compose_h * DCMIPP_MAX_DOWNSIZE_RATIO)) crop_h ;;
  let '(hdec, h_post_dec) := h in
  let '(vdec, v_post_dec) := v in
  hratio <- udiv (u32 (h_post_dec * DCMIPP_PIXELPROC_HVRATIO_CONS)) compose_w ;;
  vratio <- udiv (u32 (v_post_dec * DCMIPP_PIXELPROC_HVRATIO_CONS)) compose_h ;;
  hdiv <- udiv (u32 (DCMIPP_PIXELPROC_HVDIV_CONS * compose_w)) h_post_dec ;;
  vdiv <- udiv (u32 (DCMIPP_PIXELPROC_HVDIV_CONS * compose_h)) v_post_dec ;;
  Some (mk_downscale hdec vdec
          (clamp_max hratio DCMIPP_PIXELPROC_HVRATIO_MAX)
          (clamp_max vratio DCMIPP_PIXELPROC_HVRATIO_MAX)
          (clamp_max hdiv DCMIPP_PIXELPROC_HVDIV_MAX)
          (clamp_max vdiv DCMIPP_PIXELPROC_HVDIV_MAX)).

Definition dcmipp_pixelproc_set_downscale (d : dcmipp_pixelproc_device)
  : option dcmipp_pixelproc_device :=
  f <- downscale_factors (r_width (crop d)) (r_height (crop d))
         (r_width (compose d)) (r_height (compose d)) ;;
  let id := pipe_id d in
  let d := reg_do d (reg_clear (DCMIPP_PxDCCR id) DCMIPP_PxDCCR_ENABLE) in
  let d :=
    if negb (hdec f =? 0) || negb (vdec f =? 0) then
      reg_do d (reg_write (DCMIPP_PxDCCR id)
                  (u32 (Z.lor (Z.lor (Z.shiftl (hdec f) DCMIPP_PxDCCR_HDEC_SHIFT)
                                     (Z.shiftl (vdec f) DCMIPP_PxDCCR_VDEC_SHIFT))
                              DCMIPP_PxDCCR_ENABLE)))
    else d in
  let d := reg_do d (reg_clear (DCMIPP_PxDSCR id) DCMIPP_PxDSCR_ENABLE) in
  let d := reg_do d (reg_write (DCMIPP_PxDSRTIOR id)
                       (u32 (Z.lor (Z.shiftl (hratio f) DCMIPP_PxDSRTIOR_HRATIO_SHIFT)
                                   (Z.shiftl (vratio f) DCMIPP_PxDSRTIOR_VRATIO_SHIFT)))) in
  let d := reg_do d (reg_write (DCMIPP_PxDSSZR id)
                       (u32 (Z.lor (Z.shiftl (r_width (compose d)) DCMIPP_PxDSSZR_HSIZE_SHIFT)
                                   (Z.shiftl (r_height (compose d)) DCMIPP_PxDSSZR_VSIZE_SHIFT)))) in
  Some (reg_do d (reg_write (DCMIPP_PxDSCR id)
                    (u32 (Z.lor (Z.lor (Z.shiftl (hdiv f) DCMIPP_PxDSCR_HDIV_SHIFT)
                                       (Z.shiftl (vdiv f) DCMIPP_PxDSCR_VDIV_SHIFT))
                                DCMIPP_PxDSCR_ENABLE)))).

Definition dcmipp_pixelproc_configure_framerate (d : dcmipp_pixelproc_device)
  : dcmipp_pixelproc_device :=
  let d := reg_do d (reg_clear (DCMIPP_PxFCTCR (pipe_id d)) DCMIPP_PxFCTCR_FRATE_MASK) in
  reg_do d (reg_set (DCMIPP_PxFCTCR (pipe_id d)) (frate d)).

(** ** Frame rate *)

Definition dcmipp_frates : list Z := [1; 2; 4; 8].

Definition dcmipp_pixelproc_g_frame_interval (d : dcmipp_pixelproc_device) (p : pad)
  : Z * v4l2_fract :=
  (0, if IS_SINK p then sink_interval d else src_interval d).

(** Returns the error number, the device and [fi->interval] as left in
    the caller's structure; [None] when the ratio divides by zero. *)
Definition dcmipp_pixelproc_s_frame_interval
    (d : dcmipp_pixelproc_device) (p : pad) (interval : v4l2_fract)
  : option (Z * dcmipp_pixelproc_device * v4l2_fract) :=
  if streaming d then Some (- EBUSY, d, interval)
  else
    let interval :=
      if (numerator interval =? 0) || (denominator interval =? 0)
      then sink_interval d else interval in
    if IS_SINK p then
      let d := set_frate d 0 in
      let d := set_sink_interval d interval in
      let d := set_src_interval d (sink_interval d) in
      Some (0, d, interval)
    else
      ratio <- udiv (u32 (denominator (sink_interval d) * numerator interval))
                    (u32 (numerator (sink_interval d) * denominator interval)) ;;
      let d := set_frate d (if 8 <=? ratio then 3
                            else if 4 <=? ratio then 2
                            else if 2 <=? ratio then 1 else 0) in
      let ratio := nth (Z.to_nat (frate d)) dcmipp_frates 0 in
      let d := set_src_interval d
                 (mk_fract (u32 (numerator (sink_interval d) * ratio))
                           (denominator (sink_interval d))) in
      Some (0, d, interval).

(** ** Pad operations *)

Section PixelProc.

Context {platform : dcmipp_platform}.

Definition crop_min : v4l2_rect :=
  mk_rect 0 0 DCMIPP_FRAME_MIN_WIDTH DCMIPP_FRAME_MIN_HEIGHT.

Definition dcmipp_pixelproc_get_crop_bound (fmt : v4l2_mbus_framefmt) : v4l2_rect :=
  mk_rect 0 0 (width fmt) (height fmt).

Definition dcmipp_pixelproc_adjust_crop (r : v4l2_rect) (fmt : v4l2_mbus_framefmt)
  : v4l2_rect :=
  let src_rect := dcmipp_pixelproc_get_crop_bound fmt in
  let r := v4l2_rect_set_min_size r crop_min in
  v4l2_rect_map_inside r src_rect.

Definition dcmipp_pixelproc_adjust_fmt (fmt : v4l2_mbus_framefmt) (p : pad)
  : v4l2_mbus_framefmt :=
  let fmt :=
    match dcmipp_pixelproc_pix_map_by_code (code fmt) p with
    | Some _ => fmt
    | None =>
        fmt_with_code fmt (if IS_SRC p then PIXELPROC_MEDIA_BUS_SRC_FMT_DEFAULT
                           else PIXELPROC_MEDIA_BUS_SINK_FMT_DEFAULT)
    end in
  let fmt :=
    fmt_with_size fmt
      (clamp_t_u32 (width fmt) DCMIPP_FRAME_MIN_WIDTH DCMIPP_FRAME_MAX_WIDTH)
      (clamp_t_u32 (height fmt) DCMIPP_FRAME_MIN_HEIGHT DCMIPP_FRAME_MAX_HEIGHT) in
  let fmt :=
    if (field fmt =? V4L2_FIELD_ANY) || (field fmt =? V4L2_FIELD_ALTERNATE)
    then fmt_with_field fmt V4L2_FIELD_NONE else fmt in
  dcmipp_colorimetry_clamp fmt.

Definition dcmipp_pixelproc_get_fmt
    (d : dcmipp_pixelproc_device) (st : v4l2_subdev_state) (p : pad) (which : Z)
  : Z * v4l2_mbus_framefmt :=
  (0, if IS_SINK p then
        (if which =? V4L2_SUBDEV_FORMAT_TRY
         then v4l2_subdev_get_try_format st p else sink_fmt d)
      else
        (if which =? V4L2_SUBDEV_FORMAT_TRY
         then v4l2_subdev_get_try_format st p else src_fmt d)).

(** The source format written when the sink format is set: a copy of the
    adjusted sink format with its code replaced. *)
Definition propagated_src_fmt (format : v4l2_mbus_framefmt) : v4l2_mbus_framefmt :=
  fmt_with_code format
    (if (MEDIA_BUS_FMT_Y8_1X8 <=? code format) && (code format <? MEDIA_BUS_FMT_SBGGR8_1X8)
     then MEDIA_BUS_FMT_YUYV8_2X8 else MEDIA_BUS_FMT_RGB565_2X8_LE).

(** Returns the error number, the device, the try state and [fmt->format]
    as left in the caller's structure. *)
Definition dcmipp_pixelproc_set_fmt
    (d : dcmipp_pixelproc_device) (st : v4l2_subdev_state)
    (p : pad) (which : Z) (format : v4l2_mbus_framefmt)
  : Z * dcmipp_pixelproc_device * v4l2_subdev_state * v4l2_mbus_framefmt :=
  let active := which =? V4L2_SUBDEV_FORMAT_ACTIVE in
  if active && streaming d then (- EBUSY, d, st, format)
  else
    let format := dcmipp_pixelproc_adjust_fmt format p in
    (* When setting sink format, we have to update the src format *)
    let '(d, st) :=
      if IS_SINK p then
        if active then (set_src_fmt d (propagated_src_fmt format), st)
        else (d, set_try_format st PAD_SRC (propagated_src_fmt format))
      else (d, st) in
    (* *pad_fmt = fmt->format *)
    let '(d, st) :=
      if active then
        ((if IS_SINK p then set_sink_fmt d format else set_src_fmt d format), st)
      else (d, set_try_format st p format) in
    (* Update sink pad crop - compose *)
    let d :=
      if IS_SINK p && active then
        let d := set_crop d (mk_rect 0 0 (width format) (height format)) in
        set_compose d (mk_rect 0 0 (width format) (height format))
      else d in
    (0, d, st, format).

Definition dcmipp_pixelproc_get_selection
    (d : dcmipp_pixelproc_device) (st : v4l2_subdev_state)
    (p : pad) (which target : Z) (r : v4l2_rect)
  : Z * v4l2_rect :=
  if IS_SRC p then (- EINVAL, r)
  else
    let active := which =? V4L2_SUBDEV_FORMAT_ACTIVE in
    let sink := if active then sink_fmt d else v4l2_subdev_get_try_format st p in
    let crop_r := if active then crop d else v4l2_subdev_get_try_crop st p in
    let compose_r := if active then compose d else v4l2_subdev_get_try_compose st p in
    if target =? V4L2_SEL_TGT_CROP then (0, crop_r)
    else if (target =? V4L2_SEL_TGT_CROP_BOUNDS) || (target =? V4L2_SEL_TGT_CROP_DEFAULT)
    then (0, dcmipp_pixelproc_get_crop_bound sink)
    else if target =? V4L2_SEL_TGT_COMPOSE then (0, compose_r)
    else (- EINVAL, r).

(** The two clamps of the [V4L2_SEL_TGT_COMPOSE] case, on one dimension. *)
Definition compose_clamp (req crop_dim : Z) : Z :=
  if crop_dim <? req then crop_dim
  else if req <? crop_dim / DCMIPP_MAX_DOWNSCALE_RATIO
       then crop_dim / DCMIPP_MAX_DOWNSCALE_RATIO
       else req.

(** Returns the error number, the device, the try state and [s->r] as left
    in the caller's structure. *)
Definition dcmipp_pixelproc_set_selection
    (d : dcmipp_pixelproc_device) (st : v4l2_subdev_state)
    (p : pad) (which target : Z) (r : v4l2_rect)
  : Z * dcmipp_pixelproc_device * v4l2_subdev_state * v4l2_rect :=
  if IS_SRC p then (- EINVAL, d, st, r)
  else
    let active := which =? V4L2_SUBDEV_FORMAT_ACTIVE in
    let sink := if active then sink_fmt d else v4l2_subdev_get_try_format st p in
    let crop_r := if active then crop d else v4l2_subdev_get_try_crop st p in
    let update_src d st r :=
      (* Update the source pad size *)
      if active then
        (set_src_fmt d (fmt_with_size (src_fmt d) (r_width r) (r_height r)), st)
      else
        (d, set_try_format st PAD_SRC
              (fmt_with_size (v4l2_subdev_get_try_format st PAD_SRC)
                 (r_width r) (r_height r))) in
    if target =? V4L2_SEL_TGT_CROP then
      let r := dcmipp_pixelproc_adjust_crop r sink in
      (* Setting the crop also set the compose identically *)
      let '(d, st) :=
        if active then (set_compose (set_crop d r) r, st)
        else (d, set_try_compose (set_try_crop st p r) p r) in
      let '(d, st) := update_src d st r in
      (0, d, st, r)
    else if target =? V4L2_SEL_TGT_COMPOSE then
      let r := mk_rect 0 0 (compose_clamp (r_width r) (r_width crop_r))
                 (compose_clamp (r_height r) (r_height crop_r)) in
      let '(d, st) :=
        if active then (set_compose d r, st)
        else (d, set_try_compose st p r) in
      let '(d, st) := update_src d st r in
      (0, d, st, r)
    else (- EINVAL, d, st, r).

(** ** Stream start *)

Fixpoint write_conv_matrix (d : dcmipp_pixelproc_device) (m : list Z) (n : nat) (i : Z)
  : dcmipp_pixelproc_device :=
  match n with
  | O => d
  | S n' =>
      write_conv_matrix
        (reg_do d (reg_write (DCMIPP_P1YUVRR1 + 4 * i) (nth (Z.to_nat i) m 0)))
        m n' (i + 1)
  end.

Definition dcmipp_pixelproc_colorconv_config (d : dcmipp_pixelproc_device)
  : Z * dcmipp_pixelproc_device :=
  let '(ret, ccconf) := dcmipp_colorconv_configure (sink_fmt d) (src_fmt d) in
  if negb (ret =? 0) then (ret, d)
  else
    let d := write_conv_matrix d (conv_matrix ccconf) 6 0 in
    let val := 0 in
    let val := if clamping ccconf then Z.lor val DCMIPP_P1YUVCR_CLAMP else val in
    let val := if clamping_as_rgb ccconf then Z.lor val DCMIPP_P1YUVCR_TYPE_RGB else val in
    let val := if cc_enable ccconf then Z.lor val DCMIPP_P1YUVCR_ENABLE else val in
    (0, reg_do d (reg_write DCMIPP_P1YUVCR val)).

(** Tail of [dcmipp_pixelproc_s_stream] after the colour conversion. *)
Definition setup_pixel_packer (d : dcmipp_pixelproc_device)
  : Z * dcmipp_pixelproc_device :=
  match dcmipp_pixelproc_pix_map_by_code (code (src_fmt d)) PAD_SRC with
  | None => (- EINVAL, d)
  | Some vpix =>
      let val := ppcr_fmt vpix in
      let val := if negb (swap_uv vpix =? 0) then Z.lor val DCMIPP_PxPPCR_SWAPRB else val in
      let d := reg_do d (reg_write (DCMIPP_PxPPCR (pipe_id d)) val) in
      (* Apply customized values from user when stream starts. *)
      let '(ret, accesses) := v4l2_ctrl_handler_setup d in
      (ret, fold_left reg_do accesses d)
  end.

(** [None] when [dcmipp_pixelproc_set_downscale] divides by zero. *)
Definition dcmipp_pixelproc_s_stream (d : dcmipp_pixelproc_device) (enable : Z)
  : option (Z * dcmipp_pixelproc_device) :=
  if enable =? 0 then Some (0, d)
  else
    let d := dcmipp_pixelproc_configure_framerate d in
    let id := pipe_id d in
    let d := reg_do d (reg_write (DCMIPP_PxCRSTR id)
                         (u32 (Z.lor (Z.shiftl (top (crop d)) DCMIPP_PxCRSTR_VSTART_SHIFT)
                                     (Z.shiftl (left (crop d)) DCMIPP_PxCRSTR_HSTART_SHIFT)))) in
    let d := reg_do d (reg_write (DCMIPP_PxCRSZR id)
                         (u32 (Z.lor (Z.lor
                                 (Z.shiftl (r_width (crop d)) DCMIPP_PxCRSZR_HSIZE_SHIFT)
                                 (Z.shiftl (r_height (crop d)) DCMIPP_PxCRSZR_VSIZE_SHIFT))
                                 DCMIPP_PxCRSZR_ENABLE))) in
    d <- dcmipp_pixelproc_set_downscale d ;;
    if id =? 1 then
      let '(ret, d) := dcmipp_pixelproc_colorconv_config d in
      if negb (ret =? 0) then Some (ret, d)
      else Some (setup_pixel_packer d)
    else Some (setup_pixel_packer d).

(** ** Construction *)

Definition dcmipp_pixelproc_ent_init (id : Z) : dcmipp_pixelproc_device :=
  let interval := mk_fract 1 30 in
  mk_pixelproc
    (fmt_with_code fmt_default PIXELPROC_MEDIA_BUS_SINK_FMT_DEFAULT)
    (fmt_with_code fmt_default PIXELPROC_MEDIA_BUS_SRC_FMT_DEFAULT)
    false [] id interval interval 0 0
    (mk_rect 0 0 DCMIPP_FMT_WIDTH_DEFAULT DCMIPP_FMT_HEIGHT_DEFAULT)
    (mk_rect 0 0 DCMIPP_FMT_WIDTH_DEFAULT DCMIPP_FMT_HEIGHT_DEFAULT).

Definition dcmipp_pixelproc_init_cfg (st : v4l2_subdev_state) : Z * v4l2_subdev_state :=
  let st := set_try_format st PAD_SINK
              (fmt_with_code fmt_default PIXELPROC_MEDIA_BUS_SINK_FMT_DEFAULT) in
  let st := set_try_format st PAD_SRC
              (fmt_with_code fmt_default PIXELPROC_MEDIA_BUS_SRC_FMT_DEFAULT) in
  (0, st).

End PixelProc.

(** ** A reference platform

    Used to run the operations on concrete inputs.  The general theorems
    below do not depend on it. *)

(** Modelled from the spec: the frame size limits of [dcmipp-common.h],
    which is not part of the sources at hand.  The spec gives the minimum
    as 16x16 and only names the maximum; 4096x2160 stands for it here. *)
Definition REF_FRAME_MIN_WIDTH : Z := 16.
Definition REF_FRAME_MIN_HEIGHT : Z := 16.
Definition REF_FRAME_MAX_WIDTH : Z := 4096.
Definition REF_FRAME_MAX_HEIGHT : Z := 2160.

(** [v4l2_rect_set_min_size] of [media/v4l2-rect.h]. *)
Definition ref_rect_set_min_size (r min_size : v4l2_rect) : v4l2_rect :=
  mk_rect (left r) (top r)
    (if r_width r <? r_width min_size then r_width min_size else r_width r)
    (if r_height r <? r_height min_size then r_height min_size else r_height r).

(** [v4l2_rect_map_inside] of [media/v4l2-rect.h], for rectangles whose
    sums stay in range. *)
Definition ref_rect_map_inside (r boundary : v4l2_rect) : v4l2_rect :=
  let w := if r_width boundary <? r_width r then r_width boundary else r_width r in
  let h := if r_height boundary <? r_height r then r_height boundary else r_height r in
  let l := if left r <? left boundary then left boundary else left r in
  let t := if top r <? top boundary then top boundary else top r in
  let l := if left boundary + r_width boundary <? l + w
           then left boundary + r_width boundary - w else l in
  let t := if top boundary + r_height boundary <? t + h
           then top boundary + r_height boundary - h else t in
  mk_rect l t w h.

#[export] Instance ref_platform : dcmipp_platform := {|
  DCMIPP_FRAME_MIN_WIDTH := REF_FRAME_MIN_WIDTH;
  DCMIPP_FRAME_MAX_WIDTH := REF_FRAME_MAX_WIDTH;
  DCMIPP_FRAME_MIN_HEIGHT := REF_FRAME_MIN_HEIGHT;
  DCMIPP_FRAME_MAX_HEIGHT := REF_FRAME_MAX_HEIGHT;
  dcmipp_colorimetry_clamp := fun f => f;
  v4l2_rect_set_min_size := ref_rect_set_min_size;
  v4l2_rect_map_inside := ref_rect_map_inside;
  dcmipp_colorconv_configure :=
    fun _ _ => (0, mk_ccconf [0; 0; 0; 0; 0; 0] false false false);
  v4l2_ctrl_handler_setup := fun _ => (0, [])
|}.

(** Try state as [dcmipp_pixelproc_init_cfg] leaves it, with full-frame
    try rectangles. *)
Definition ref_sd_state : v4l2_subdev_state :=
  let full := mk_rect 0 0 DCMIPP_FMT_WIDTH_DEFAULT DCMIPP_FMT_HEIGHT_DEFAULT in
  snd (dcmipp_pixelproc_init_cfg
         (mk_sd_state (mk_pad_config fmt_default full full)
                      (mk_pad_config fmt_default full full))).

(** A pipe caught while streaming: the constructed device with the flag up. *)
Definition streaming_device (id : Z) : dcmipp_pixelproc_device :=
  let d := dcmipp_pixelproc_ent_init id in
  mk_pixelproc (sink_fmt d) (src_fmt d) true (regs d) (pipe_id d) (src_interval d)
    (sink_interval d) (frate d) (src_code d) (crop d) (compose d).

(** A sink request used to run the format theorems: 800x600 YUV, any field. *)
Definition yuv_800x600 : v4l2_mbus_framefmt :=
  mk_framefmt 800 600 MEDIA_BUS_FMT_YUV8_1X24 V4L2_FIELD_ANY
    V4L2_COLORSPACE_REC709 V4L2_YCBCR_ENC_DEFAULT
    V4L2_QUANTIZATION_DEFAULT V4L2_XFER_FUNC_DEFAULT.

(** ** Results of pad operations *)

(** Components of what a pad operation hands back: error number, device,
    try state and the caller's structure. *)
Definition res_ret {A : Type} (r : Z * dcmipp_pixelproc_device * v4l2_subdev_state * A)
  : Z := fst (fst (fst r)).
Definition res_dev {A : Type} (r : Z * dcmipp_pixelproc_device * v4l2_subdev_state * A)
  : dcmipp_pixelproc_device := snd (fst (fst r)).
Definition res_state {A : Type} (r : Z * dcmipp_pixelproc_device * v4l2_subdev_state * A)
  : v4l2_subdev_state := snd (fst r).
Definition res_out {A : Type} (r : Z * dcmipp_pixelproc_device * v4l2_subdev_state * A)
  : A := snd r.

(** ** Enumeration operations *)

(** The fields of [struct v4l2_subdev_frame_size_enum] the driver reads
    and writes. *)
Record v4l2_subdev_frame_size_enum : Type := mk_fse {
  fse_index : Z;
  fse_code : Z;
  min_width : Z;
  max_width : Z;
  min_height : Z;
  max_height : Z
}.

Section Enumeration.

Context {platform : dcmipp_platform}.

(** Returns the error number and [code->code] as left in the caller's
    structure. *)
Definition dcmipp_pixelproc_enum_mbus_code (p : pad) (index code_in : Z) : Z * Z :=
  match dcmipp_pixelproc_pix_map_by_index index p with
  | None => (- EINVAL, code_in)
  | Some vpix => (0, pm_code vpix)
  end.

Definition dcmipp_pixelproc_enum_frame_size (p : pad) (fse : v4l2_subdev_frame_size_enum)
  : Z * v4l2_subdev_frame_size_enum :=
  if negb (fse_index fse =? 0) then (- EINVAL, fse)
  else
    match dcmipp_pixelproc_pix_map_by_code (fse_code fse) p with
    | None => (- EINVAL, fse)
    | Some _ =>
        (0, mk_fse (fse_index fse) (fse_code fse)
              DCMIPP_FRAME_MIN_WIDTH DCMIPP_FRAME_MAX_WIDTH
              DCMIPP_FRAME_MIN_HEIGHT DCMIPP_FRAME_MAX_HEIGHT)
    end.

(** Returns the error number and [fie->interval] as left in the caller's
    structure.  The test [fie->pad > 1] of the source cannot hold for a
    [pad]. *)
Definition dcmipp_pixelproc_enum_frame_interval
    (d : dcmipp_pixelproc_device) (p : pad) (index fie_width fie_height : Z)
    (interval : v4l2_fract)
  : Z * v4l2_fract :=
  if ((if IS_SRC p then Z.of_nat (length dcmipp_frates) else 1) <=? index)
     || (DCMIPP_FRAME_MAX_WIDTH <? fie_width)
     || (DCMIPP_FRAME_MAX_HEIGHT <? fie_height)
  then (- EINVAL, interval)
  else if IS_SINK p then (0, sink_interval d)
  else
    let ratio := nth (Z.to_nat index) dcmipp_frates 0 in
    (0, mk_fract (u32 (numerator (sink_interval d) * ratio))
                 (denominator (sink_interval d))).

(** What the driver relies on from [dcmipp_colorimetry_clamp]: it rewrites
    colorimetry fields only. *)
Definition colorimetry_only : Prop :=
  forall f : v4l2_mbus_framefmt,
    code (dcmipp_colorimetry_clamp f) = code f
    /\ width (dcmipp_colorimetry_clamp f) = width f
    /\ height (dcmipp_colorimetry_clamp f) = height f
    /\ field (dcmipp_colorimetry_clamp f) = field f.

End Enumeration.

(** ** Register field masks of the downsize block *)

Definition DCMIPP_PxDSCR_HDIV_MASK : Z := GENMASK 9 0.
Definition DCMIPP_PxDSCR_VDIV_MASK : Z := GENMASK 25 16.
Definition DCMIPP_PxDSRTIOR_HRATIO_MASK : Z := GENMASK 15 0.
Definition DCMIPP_PxDSRTIOR_VRATIO_MASK : Z := GENMASK 31 16.

(** ** Pipe identity *)

Definition EIO : Z := 5.

Module PipeName.

Import String.

(** [strstr(haystack, needle)]: offset of the first occurrence, or
    [None] for a null result. *)
Definition strstr (haystack needle : string) : option nat :=
  index 0 needle haystack.

(** [needle] occurs in [name] at some offset. *)
Definition occurs (needle name : string) : Prop :=
  exists m : nat, substring m (length needle) name = needle.

Definition dcmipp_name_to_pipe_id (name : string) : Z :=
  match strstr name "main" with
  | Some _ => 1
  | None =>
      match strstr name "aux" with
      | Some _ => 2
      | None => - EINVAL
      end
  end.

(** The part of [dcmipp_pixelproc_ent_init] that depends on the entity
    name: the identifier is stored in a [u32], any value other than 1 and 2
    ends in [ERR_PTR(-EIO)] ([inl]), otherwise the device is filled with
    its defaults.  Allocation, control and registration failures are left
    out. *)
Definition dcmipp_pixelproc_ent_init_name (entity_name : string)
  : Z + dcmipp_pixelproc_device :=
  let id := u32 (dcmipp_name_to_pipe_id entity_name) in
  if negb (id =? 1) && negb (id =? 2) then inl (- EIO)
  else inr (dcmipp_pixelproc_ent_init id).

End PipeName.

(** * Properties *)

(** ** Stream control and the streaming flag *)

Section StreamFlag.

Context {platform : dcmipp_platform}.

Lemma fold_reg_do_streaming (accesses : list reg_access) :
  forall d, streaming (fold_left reg_do accesses d) = streaming d.
Proof.
  induction accesses as [|a l IH]; intro d; simpl.
  - reflexivity.
  - rewrite IH. reflexivity.
Qed.

Lemma write_conv_matrix_streaming (m : list Z) (n : nat) :
  forall d i, streaming (write_conv_matrix d m n i) = streaming d.
Proof.
  induction n as [|n IH]; intros d i; simpl.
  - reflexivity.
  - rewrite IH. reflexivity.
Qed.

Lemma set_downscale_streaming (d d' : dcmipp_pixelproc_device) :
  dcmipp_pixelproc_set_downscale d = Some d' -> streaming d' = streaming d.
Proof.
  unfold dcmipp_pixelproc_set_downscale.
  destruct (downscale_factors _ _ _ _) as [f|]; simpl; [|discriminate].
  intro H. injection H as <-.
  destruct (negb (hdec f =? 0) || negb (vdec f =? 0)); reflexivity.
Qed.

Lemma colorconv_config_streaming (d : dcmipp_pixelproc_device) :
  streaming (snd (dcmipp_pixelproc_colorconv_config d)) = streaming d.
Proof.
  unfold dcmipp_pixelproc_colorconv_config.
  destruct (dcmipp_colorconv_configure _ _) as [ret cc].
  destruct (negb (ret =? 0)); cbn [snd].
  - reflexivity.
  - cbn [reg_do streaming]. apply write_conv_matrix_streaming.
Qed.

Lemma setup_pixel_packer_streaming (d : dcmipp_pixelproc_device) :
  streaming (snd (setup_pixel_packer d)) = streaming d.
Proof.
  unfold setup_pixel_packer.
  destruct (dcmipp_pixelproc_pix_map_by_code _ _) as [vpix|]; [|reflexivity].
  destruct (v4l2_ctrl_handler_setup _) as [ret accesses]. simpl.
  rewrite fold_reg_do_streaming. reflexivity.
Qed.

(** No path through [dcmipp_pixelproc_s_stream] assigns the flag. *)
Lemma s_stream_streaming_unchanged
    (d d' : dcmipp_pixelproc_device) (enable ret : Z) :
  dcmipp_pixelproc_s_stream d enable = Some (ret, d') ->
  streaming d' = streaming d.
Proof.
  unfold dcmipp_pixelproc_s_stream.
  destruct (enable =? 0).
  { intro H. injection H as _ <-. reflexivity. }
  destruct (dcmipp_pixelproc_set_downscale _) as [d1|] eqn:Hds; simpl; [|discriminate].
  apply set_downscale_streaming in Hds. simpl in Hds.
  destruct (pipe_id d =? 1).
  - pose proof (colorconv_config_streaming d1) as Hcc.
    destruct (dcmipp_pixelproc_colorconv_config d1) as [r d2]. simpl in Hcc.
    destruct (negb (r =? 0)).
    + intro H. injection H as _ <-. congruence.
    + pose proof (setup_pixel_packer_streaming d2) as Hpp.
      destruct (setup_pixel_packer d2) as [r3 d3]. simpl in Hpp.
      intro H. injection H as _ <-. congruence.
  - pose proof (setup_pixel_packer_streaming d1) as Hpp.
    destruct (setup_pixel_packer d1) as [r3 d3]. simpl in Hpp.
    intro H. injection H as _ <-. congruence.
Qed.

(** The selection handler never looks at the flag: on the sink pad the
    crop and compose targets always return 0. *)
Lemma set_selection_never_busy
    (d : dcmipp_pixelproc_device) (st : v4l2_subdev_state) (which target : Z)
    (r : v4l2_rect) :
  target = V4L2_SEL_TGT_CROP \/ target = V4L2_SEL_TGT_COMPOSE ->
  fst (fst (fst (dcmipp_pixelproc_set_selection d st PAD_SINK which target r))) = 0.
Proof.
  intros [-> | ->]; unfold dcmipp_pixelproc_set_selection; simpl;
    destruct (which =? V4L2_SUBDEV_FORMAT_ACTIVE); reflexivity.
Qed.

End StreamFlag.

(** C1, evaluation at the failing input: the auxiliary pipe as constructed
    is told to start streaming; the call returns 0 and the streaming flag
    of the resulting device is still false. *)
Theorem s_stream_start_leaves_flag_false :
  exists d',
    dcmipp_pixelproc_s_stream (platform := ref_platform)
      (dcmipp_pixelproc_ent_init 2) 1 = Some (0, d')
    /\ streaming d' = false.
Proof.
  eexists. split.
  - vm_compute. reflexivity.
  - reflexivity.
Qed.

(** C2, evaluation at the failing input: on a device whose streaming flag
    is true, setting the active compose rectangle, and setting the active
    crop rectangle, both return 0 and overwrite the stored rectangles. *)
Theorem set_selection_active_mutates_while_streaming :
  let d := streaming_device 1 in
  streaming d = true
  /\ crop d = mk_rect 0 0 640 480
  /\ compose d = mk_rect 0 0 640 480
  /\ (let '(ret, d', _, _) :=
        dcmipp_pixelproc_set_selection (platform := ref_platform) d ref_sd_state
          PAD_SINK V4L2_SUBDEV_FORMAT_ACTIVE V4L2_SEL_TGT_COMPOSE
          (mk_rect 0 0 320 240) in
      ret = 0 /\ ret <> - EBUSY /\ compose d' = mk_rect 0 0 320 240)
  /\ (let '(ret, d', _, _) :=
        dcmipp_pixelproc_set_selection (platform := ref_platform) d ref_sd_state
          PAD_SINK V4L2_SUBDEV_FORMAT_ACTIVE V4L2_SEL_TGT_CROP
          (mk_rect 8 8 320 240) in
      ret = 0 /\ ret <> - EBUSY
      /\ crop d' = mk_rect 8 8 320 240 /\ compose d' = mk_rect 8 8 320 240).
Proof.
  vm_compute. repeat split; discriminate.
Qed.

(** ** Scaler planner *)

Section Scaler.

Lemma u32_le (x : Z) : 0 <= x -> 0 <= u32 x <= x.
Proof.
  intro Hx. unfold u32. split.
  - apply Z.mod_pos_bound. lia.
  - apply Z.mod_le; lia.
Qed.

Lemma u32_small (x : Z) : 0 <= x < 2 ^ 32 -> u32 x = x.
Proof. intro Hx. unfold u32. apply Z.mod_small. exact Hx. Qed.

(** The loop leaves before the fuel is gone when the fuel covers the bits
    of the dimension. *)
Lemma decimation_loop_terminates (fuel : nat) :
  forall limit dec post_dec,
    0 <= limit -> 0 <= post_dec < 2 ^ Z.of_nat fuel ->
    exists r, decimation_loop fuel limit dec post_dec = Some r.
Proof.
  induction fuel as [|fuel IH]; intros limit dec post Hl Hp; simpl.
  - change (2 ^ Z.of_nat 0) with 1 in Hp.
    destruct (limit <? post) eqn:E; [apply Z.ltb_lt in E; lia | eauto].
  - destruct (limit <? post) eqn:E; [|eauto].
    apply IH; [exact Hl|].
    rewrite Nat2Z.inj_succ, Z.pow_succ_r in Hp by lia.
    split.
    + apply Z.div_pos; lia.
    + apply Z.div_lt_upper_bound; lia.
Qed.

Lemma decimation_total (limit post_dec : Z) :
  0 <= limit -> 0 <= post_dec < 2 ^ 32 ->
  exists dec' post_dec', decimation limit post_dec = Some (dec', post_dec').
Proof.
  intros Hl Hp.
  destruct (decimation_loop_terminates 32 limit 0 post_dec Hl Hp) as [[a b] H].
  exists a, b. exact H.
Qed.

(** With a limit of at least 8 the halved dimension never reaches zero. *)
Lemma decimation_loop_post_pos (fuel : nat) :
  forall limit dec post_dec dec' post_dec',
    8 <= limit -> 0 < post_dec ->
    decimation_loop fuel limit dec post_dec = Some (dec', post_dec') ->
    0 < post_dec'.
Proof.
  induction fuel as [|fuel IH]; intros limit dec post dec' post' Hl Hp; simpl;
    destruct (limit <? post) eqn:E; try discriminate;
    try (intro H; injection H as _ <-; exact Hp).
  apply Z.ltb_lt in E.
  apply IH; [exact Hl|].
  apply Z.div_str_pos. lia.
Qed.

(** A dimension within [2 ^ k] times the limit is halved at most [k] times. *)
Lemma decimation_loop_dec_bound (fuel : nat) :
  forall (k : nat) limit dec post_dec dec' post_dec',
    0 <= dec -> 0 <= limit ->
    post_dec <= 2 ^ Z.of_nat k * limit ->
    decimation_loop fuel limit dec post_dec = Some (dec', post_dec') ->
    0 <= dec' <= dec + Z.of_nat k.
Proof.
  induction fuel as [|fuel IH]; intros k limit dec post dec' post' Hd Hl Hk; simpl;
    destruct (limit <? post) eqn:E; try discriminate;
    try (intro H; injection H as <- _; lia).
  apply Z.ltb_lt in E.
  destruct k as [|k].
  { change (2 ^ Z.of_nat 0) with 1 in Hk. lia. }
  intro H.
  rewrite Nat2Z.inj_succ, Z.pow_succ_r in Hk by lia.
  pose proof (u32_le (dec + 1) ltac:(lia)) as Hu.
  assert (Hhalf : post / 2 <= 2 ^ Z.of_nat k * limit).
  { apply Z.div_le_upper_bound; lia. }
  specialize (IH k limit (u32 (dec + 1)) (post / 2) dec' post'
                ltac:(lia) Hl Hhalf H).
  lia.
Qed.

Lemma clamp_max_le (v m : Z) : clamp_max v m <= m.
Proof.
  unfold clamp_max. destruct (m <? v) eqn:E.
  - lia.
  - apply Z.ltb_ge in E. exact E.
Qed.

(** Whenever the planner produces a result, the ratio and divider fields
    respect their register maxima. *)
Lemma downscale_factors_ratio_div_bounds
    (crop_w crop_h compose_w compose_h : Z) (f : downscale) :
  downscale_factors crop_w crop_h compose_w compose_h = Some f ->
  hratio f <= 65535 /\ vratio f <= 65535 /\ hdiv f <= 1023 /\ vdiv f <= 1023.
Proof.
  unfold downscale_factors.
  destruct (decimation _ crop_w) as [[hd hp]|]; simpl; [|discriminate].
  destruct (decimation _ crop_h) as [[vd vp]|]; simpl; [|discriminate].
  destruct (udiv _ compose_w) as [hr|]; simpl; [|discriminate].
  destruct (udiv _ compose_h) as [vr|]; simpl; [|discriminate].
  destruct (udiv _ hp) as [hv|]; simpl; [|discriminate].
  destruct (udiv _ vp) as [vv|]; simpl; [|discriminate].
  intro H. injection H as <-. simpl.
  repeat split; apply clamp_max_le.
Qed.

(** The planner divides safely as soon as both compose dimensions are at
    least 1 (and small enough for [compose * 8] not to wrap). *)
Lemma downscale_factors_total (crop_w crop_h compose_w compose_h : Z) :
  0 < crop_w < 2 ^ 32 -> 0 < crop_h < 2 ^ 32 ->
  0 < compose_w < 2 ^ 29 -> 0 < compose_h < 2 ^ 29 ->
  exists f, downscale_factors crop_w crop_h compose_w compose_h = Some f.
Proof.
  intros Hcw Hch Hw Hh. unfold downscale_factors, DCMIPP_MAX_DOWNSIZE_RATIO.
  rewrite (u32_small (compose_w * 8)) by lia.
  rewrite (u32_small (compose_h * 8)) by lia.
  destruct (decimation_total (compose_w * 8) crop_w) as (hd & hp & Hhd); try lia.
  destruct (decimation_total (compose_h * 8) crop_h) as (vd & vp & Hvd); try lia.
  rewrite Hhd, Hvd. simpl.
  assert (Hhp : 0 < hp).
  { unfold decimation in Hhd.
    eapply decimation_loop_post_pos; [| |exact Hhd]; lia. }
  assert (Hvp : 0 < vp).
  { unfold decimation in Hvd.
    eapply decimation_loop_post_pos; [| |exact Hvd]; lia. }
  unfold udiv.
  destruct (compose_w =? 0) eqn:E1; [apply Z.eqb_eq in E1; lia|].
  destruct (compose_h =? 0) eqn:E2; [apply Z.eqb_eq in E2; lia|].
  destruct (hp =? 0) eqn:E3; [apply Z.eqb_eq in E3; lia|].
  destruct (vp =? 0) eqn:E4; [apply Z.eqb_eq in E4; lia|].
  simpl. eauto.
Qed.

(** With the lower bound taken exactly ([crop <= 64 * compose], no
    truncation) the decimation counters stay within their two bits. *)
Lemma downscale_factors_dec_le_3
    (crop_w crop_h compose_w compose_h : Z) (f : downscale) :
  0 <= compose_w < 2 ^ 29 -> 0 <= compose_h < 2 ^ 29 ->
  crop_w <= 64 * compose_w -> crop_h <= 64 * compose_h ->
  downscale_factors crop_w crop_h compose_w compose_h = Some f ->
  0 <= hdec f <= 3 /\ 0 <= vdec f <= 3.
Proof.
  intros Hw Hh Hcw Hch. unfold downscale_factors, DCMIPP_MAX_DOWNSIZE_RATIO.
  rewrite (u32_small (compose_w * 8)) by lia.
  rewrite (u32_small (compose_h * 8)) by lia.
  destruct (decimation _ crop_w) as [[hd hp]|] eqn:Hhd; simpl; [|discriminate].
  destruct (decimation _ crop_h) as [[vd vp]|] eqn:Hvd; simpl; [|discriminate].
  destruct (udiv _ compose_w) as [hr|]; simpl; [|discriminate].
  destruct (udiv _ compose_h) as [vr|]; simpl; [|discriminate].
  destruct (udiv _ hp) as [hv|]; simpl; [|discriminate].
  destruct (udiv _ vp) as [vv|]; simpl; [|discriminate].
  intro H. injection H as <-. simpl.
  unfold decimation in Hhd, Hvd.
  apply (decimation_loop_dec_bound 32 3) in Hhd; [|lia|lia|change (2 ^ Z.of_nat 3) with 8; lia].
  apply (decimation_loop_dec_bound 32 3) in Hvd; [|lia|lia|change (2 ^ Z.of_nat 3) with 8; lia].
  change (Z.of_nat 3) with 3 in Hhd, Hvd. lia.
Qed.

End Scaler.

(** C3, the claim fails at its own input: for crop 640x480 and compose
    640x480 the planner does not produce dividers of 1024. *)
Lemma plan_640x480_div_is_not_1024 :
  downscale_factors 640 480 640 480
  <> Some (mk_downscale 0 0 8192 8192 1024 1024).
Proof. vm_compute. discriminate. Qed.

(** C3 as amended: for crop 640x480 and compose 640x480 the planner gives
    hdec = vdec = 0, hratio = vratio = 8192 and, the quotient 1024 being
    clamped to the divider maximum, hdiv = vdiv = 1023. *)
Theorem plan_640x480_identity :
  downscale_factors 640 480 640 480
  = Some (mk_downscale 0 0 8192 8192 1023 1023).
Proof. vm_compute. reflexivity. Qed.

(** C5, evaluation at the failing input: the sink format is set to 16x16
    (crop and compose follow), then a 0x0 compose rectangle is requested.
    Both calls return 0, the stored compose is 0x0, and starting the
    stream then divides by zero in the planner. *)
Theorem stored_zero_compose_traps_planner :
  let '(ret1, d1, st1, _) :=
    dcmipp_pixelproc_set_fmt (platform := ref_platform)
      (dcmipp_pixelproc_ent_init 1) ref_sd_state PAD_SINK V4L2_SUBDEV_FORMAT_ACTIVE
      (mk_framefmt 16 16 MEDIA_BUS_FMT_RGB888_1X24 V4L2_FIELD_NONE
         V4L2_COLORSPACE_REC709 0 0 0) in
  let '(ret2, d2, _, _) :=
    dcmipp_pixelproc_set_selection (platform := ref_platform) d1 st1
      PAD_SINK V4L2_SUBDEV_FORMAT_ACTIVE V4L2_SEL_TGT_COMPOSE (mk_rect 0 0 0 0) in
  ret1 = 0 /\ crop d1 = mk_rect 0 0 16 16
  /\ ret2 = 0 /\ compose d2 = mk_rect 0 0 0 0
  /\ downscale_factors 16 16 0 0 = None
  /\ dcmipp_pixelproc_s_stream (platform := ref_platform) d2 1 = None.
Proof. vm_compute. repeat split. Qed.

(** C6, evaluation at the failing input: crop 700x480 with compose 10x480
    satisfies the stated range (700 / 64 = 10), and the planner returns a
    horizontal decimation of 4. *)
Theorem plan_700_to_10_decimates_four_times :
  700 / 64 <= 10 <= 700 /\ 480 / 64 <= 480 <= 480
  /\ exists f, downscale_factors 700 480 10 480 = Some f
               /\ hdec f = 4 /\ ~ hdec f <= 3.
Proof.
  split; [vm_compute; split; discriminate|].
  split; [vm_compute; split; discriminate|].
  eexists. split; [vm_compute; reflexivity|].
  split; [reflexivity|]. vm_compute. intro H. apply H. reflexivity.
Qed.

(** ** Frame rate negotiation *)

(** The interval handler tests the flag first: on a streaming pipe it
    returns -EBUSY for either pad and changes nothing. *)
Lemma s_frame_interval_busy_while_streaming
    (d : dcmipp_pixelproc_device) (p : pad) (interval : v4l2_fract) :
  streaming d = true ->
  dcmipp_pixelproc_s_frame_interval d p interval = Some (- EBUSY, d, interval).
Proof.
  intro Hs. unfold dcmipp_pixelproc_s_frame_interval. rewrite Hs. reflexivity.
Qed.

(** C4, the claim fails at its second input: with sink interval 1/30 the
    request 1/240 does not give frame-skip code 3 and source interval 8/30. *)
Lemma negotiate_1_240_is_not_code_3 :
  ~ (exists d' fi,
        dcmipp_pixelproc_s_frame_interval (dcmipp_pixelproc_ent_init 1) PAD_SRC
          (mk_fract 1 240) = Some (0, d', fi)
        /\ frate d' = 3 /\ src_interval d' = mk_fract 8 30).
Proof.
  intros (d' & fi & H & Hf & _).
  vm_compute in H. injection H as <- _.
  discriminate Hf.
Qed.

(** C4 as amended: with sink interval 1/30 and the pipe not streaming, the
    requested source interval 1/30 yields frame-skip code 0 and source
    interval 1/30; the request 1/240 (shorter than the sink interval, ratio
    0) also yields code 0 and source interval 1/30; it is the request 8/30
    that yields code 3 and source interval 8/30. *)
Theorem negotiate_source_interval_examples (d : dcmipp_pixelproc_device) :
  streaming d = false ->
  sink_interval d = mk_fract 1 30 ->
  (exists d',
      dcmipp_pixelproc_s_frame_interval d PAD_SRC (mk_fract 1 30)
      = Some (0, d', mk_fract 1 30)
      /\ frate d' = 0 /\ src_interval d' = mk_fract 1 30)
  /\ (exists d',
         dcmipp_pixelproc_s_frame_interval d PAD_SRC (mk_fract 1 240)
         = Some (0, d', mk_fract 1 240)
         /\ frate d' = 0 /\ src_interval d' = mk_fract 1 30)
  /\ (exists d',
         dcmipp_pixelproc_s_frame_interval d PAD_SRC (mk_fract 8 30)
         = Some (0, d', mk_fract 8 30)
         /\ frate d' = 3 /\ src_interval d' = mk_fract 8 30).
Proof.
  intros Hs Hi.
  destruct d as [sf srf str rg pid si ski fr sc cr co].
  cbn [streaming sink_interval] in Hs, Hi. subst str ski.
  split; [|split]; eexists; (split; [vm_compute; reflexivity|]);
    vm_compute; split; reflexivity.
Qed.

Lemma negotiate_source_interval_examples_witness :
  (exists d',
      dcmipp_pixelproc_s_frame_interval (dcmipp_pixelproc_ent_init 1) PAD_SRC
        (mk_fract 1 30) = Some (0, d', mk_fract 1 30)
      /\ frate d' = 0 /\ src_interval d' = mk_fract 1 30)
  /\ (exists d',
         dcmipp_pixelproc_s_frame_interval (dcmipp_pixelproc_ent_init 1) PAD_SRC
           (mk_fract 1 240) = Some (0, d', mk_fract 1 240)
         /\ frate d' = 0 /\ src_interval d' = mk_fract 1 30)
  /\ (exists d',
         dcmipp_pixelproc_s_frame_interval (dcmipp_pixelproc_ent_init 1) PAD_SRC
           (mk_fract 8 30) = Some (0, d', mk_fract 8 30)
         /\ frate d' = 3 /\ src_interval d' = mk_fract 8 30).
Proof.
  apply (negotiate_source_interval_examples (dcmipp_pixelproc_ent_init 1));
    reflexivity.
Defined.

(** C9: while the pipe is not streaming, setting the sink frame interval
    returns 0, resets the frame-skip code to 0 and makes the source
    interval equal to the new sink interval; a request with a zero
    numerator or denominator is first replaced by the current sink
    interval. *)
Theorem s_frame_interval_sink_resets_frate
    (d : dcmipp_pixelproc_device) (interval : v4l2_fract) :
  streaming d = false ->
  let requested :=
    if (numerator interval =? 0) || (denominator interval =? 0)
    then sink_interval d else interval in
  exists d',
    dcmipp_pixelproc_s_frame_interval d PAD_SINK interval = Some (0, d', requested)
    /\ frate d' = 0
    /\ sink_interval d' = requested
    /\ src_interval d' = sink_interval d'.
Proof.
  intros Hs requested.
  unfold dcmipp_pixelproc_s_frame_interval. rewrite Hs.
  cbn [IS_SINK pad_index Z.eqb].
  eexists. split; [reflexivity|].
  repeat split.
Qed.

Lemma s_frame_interval_sink_resets_frate_witness :
  exists d',
    dcmipp_pixelproc_s_frame_interval
      (set_frate (dcmipp_pixelproc_ent_init 1) 3) PAD_SINK (mk_fract 0 25)
    = Some (0, d', mk_fract 1 30)
    /\ frate d' = 0
    /\ sink_interval d' = mk_fract 1 30
    /\ src_interval d' = sink_interval d'.
Proof.
  apply (s_frame_interval_sink_resets_frate
           (set_frate (dcmipp_pixelproc_ent_init 1) 3) (mk_fract 0 25)).
  reflexivity.
Defined.

(** ** Format negotiation *)

Section SetFmt.

Context {platform : dcmipp_platform}.

Lemma set_fmt_active_ok_not_streaming
    (d : dcmipp_pixelproc_device) (st : v4l2_subdev_state) (p : pad)
    (format : v4l2_mbus_framefmt) :
  res_ret (dcmipp_pixelproc_set_fmt d st p V4L2_SUBDEV_FORMAT_ACTIVE format) = 0 ->
  streaming d = false.
Proof.
  unfold dcmipp_pixelproc_set_fmt. cbn [Z.eqb V4L2_SUBDEV_FORMAT_ACTIVE andb].
  destruct (streaming d); [|reflexivity].
  cbn. discriminate.
Qed.

(** C7: a successful set_fmt on the sink pad, with either which, stores the
    adjusted format as sink format and overwrites the source format of the
    same which with a copy of it (same width, height and colorimetry) whose
    code is YUYV8_2X8 when the adjusted sink code lies in
    [Y8_1X8, SBGGR8_1X8) and RGB565_2X8_LE otherwise; a following set_fmt on
    the source pad stores its own adjusted format there, code included, and
    leaves the sink format alone. *)
Theorem set_fmt_sink_propagates_to_src
    (d : dcmipp_pixelproc_device) (st : v4l2_subdev_state) (which : Z)
    (format : v4l2_mbus_framefmt) :
  which = V4L2_SUBDEV_FORMAT_TRY \/ which = V4L2_SUBDEV_FORMAT_ACTIVE ->
  let r := dcmipp_pixelproc_set_fmt d st PAD_SINK which format in
  res_ret r = 0 ->
  let sink := dcmipp_pixelproc_adjust_fmt format PAD_SINK in
  let src := snd (dcmipp_pixelproc_get_fmt (res_dev r) (res_state r) PAD_SRC which) in
  snd (dcmipp_pixelproc_get_fmt (res_dev r) (res_state r) PAD_SINK which) = sink
  /\ src = fmt_with_code sink
             (if (MEDIA_BUS_FMT_Y8_1X8 <=? code sink)
                 && (code sink <? MEDIA_BUS_FMT_SBGGR8_1X8)
              then MEDIA_BUS_FMT_YUYV8_2X8 else MEDIA_BUS_FMT_RGB565_2X8_LE)
  /\ width src = width sink /\ height src = height sink
  /\ colorspace src = colorspace sink /\ ycbcr_enc src = ycbcr_enc sink
  /\ quantization src = quantization sink /\ xfer_func src = xfer_func sink
  /\ forall format2 : v4l2_mbus_framefmt,
       let r2 := dcmipp_pixelproc_set_fmt (res_dev r) (res_state r) PAD_SRC which format2 in
       res_ret r2 = 0
       /\ snd (dcmipp_pixelproc_get_fmt (res_dev r2) (res_state r2) PAD_SRC which)
          = dcmipp_pixelproc_adjust_fmt format2 PAD_SRC
       /\ snd (dcmipp_pixelproc_get_fmt (res_dev r2) (res_state r2) PAD_SINK which)
          = sink.
Proof.
  intros [-> | ->] r Hret sink src.
  - (* try formats *)
    subst r src sink. clear Hret.
    unfold dcmipp_pixelproc_set_fmt, dcmipp_pixelproc_get_fmt, propagated_src_fmt.
    cbn. repeat split.
  - (* active formats *)
    apply set_fmt_active_ok_not_streaming in Hret.
    subst r src sink.
    unfold dcmipp_pixelproc_set_fmt, dcmipp_pixelproc_get_fmt, propagated_src_fmt.
    rewrite Hret. cbn. rewrite Hret. cbn. repeat split.
Qed.

(** C8: a successful set_fmt on the sink pad with which = ACTIVE resets the
    active crop and compose rectangles to left = 0, top = 0 and the width
    and height of the adjusted sink format; with which = TRY, on any pad,
    the active crop and compose and the try crop and compose stay as they
    were. *)
Theorem set_fmt_sink_active_resets_crop_compose
    (d : dcmipp_pixelproc_device) (st : v4l2_subdev_state)
    (format : v4l2_mbus_framefmt) :
  (let r := dcmipp_pixelproc_set_fmt d st PAD_SINK V4L2_SUBDEV_FORMAT_ACTIVE format in
   res_ret r = 0 ->
   res_out r = dcmipp_pixelproc_adjust_fmt format PAD_SINK
   /\ sink_fmt (res_dev r) = res_out r
   /\ crop (res_dev r) = mk_rect 0 0 (width (res_out r)) (height (res_out r))
   /\ compose (res_dev r) = mk_rect 0 0 (width (res_out r)) (height (res_out r)))
  /\ (forall p : pad,
        let r := dcmipp_pixelproc_set_fmt d st p V4L2_SUBDEV_FORMAT_TRY format in
        res_ret r = 0
        /\ crop (res_dev r) = crop d /\ compose (res_dev r) = compose d
        /\ (forall q : pad,
              v4l2_subdev_get_try_crop (res_state r) q = v4l2_subdev_get_try_crop st q
              /\ v4l2_subdev_get_try_compose (res_state r) q
                 = v4l2_subdev_get_try_compose st q)).
Proof.
  split.
  - intros r Hret. apply set_fmt_active_ok_not_streaming in Hret. subst r.
    unfold dcmipp_pixelproc_set_fmt. rewrite Hret. cbn. repeat split.
  - intros p r. subst r. unfold dcmipp_pixelproc_set_fmt.
    destruct p; cbn; repeat split; destruct q; reflexivity.
Qed.

(** C10: set_fmt with which = ACTIVE on a streaming pipe returns -EBUSY and
    hands back the device, the try state and the caller's format exactly as
    it received them, so sink format, source format, crop and compose are
    all untouched. *)
Theorem set_fmt_active_busy_is_atomic
    (d : dcmipp_pixelproc_device) (st : v4l2_subdev_state) (p : pad)
    (format : v4l2_mbus_framefmt) :
  streaming d = true ->
  dcmipp_pixelproc_set_fmt d st p V4L2_SUBDEV_FORMAT_ACTIVE format
  = (- EBUSY, d, st, format).
Proof.
  intro Hs. unfold dcmipp_pixelproc_set_fmt.
  cbn [Z.eqb V4L2_SUBDEV_FORMAT_ACTIVE andb]. rewrite Hs. reflexivity.
Qed.

End SetFmt.

Lemma set_fmt_sink_propagates_to_src_witness :
  let r := dcmipp_pixelproc_set_fmt (platform := ref_platform)
             (dcmipp_pixelproc_ent_init 1) ref_sd_state PAD_SINK
             V4L2_SUBDEV_FORMAT_ACTIVE yuv_800x600 in
  let sink := dcmipp_pixelproc_adjust_fmt (platform := ref_platform)
                yuv_800x600 PAD_SINK in
  let src := snd (dcmipp_pixelproc_get_fmt (res_dev r) (res_state r) PAD_SRC
                    V4L2_SUBDEV_FORMAT_ACTIVE) in
  snd (dcmipp_pixelproc_get_fmt (res_dev r) (res_state r) PAD_SINK
         V4L2_SUBDEV_FORMAT_ACTIVE) = sink
  /\ src = fmt_with_code sink
             (if (MEDIA_BUS_FMT_Y8_1X8 <=? code sink)
                 && (code sink <? MEDIA_BUS_FMT_SBGGR8_1X8)
              then MEDIA_BUS_FMT_YUYV8_2X8 else MEDIA_BUS_FMT_RGB565_2X8_LE)
  /\ width src = width sink /\ height src = height sink
  /\ colorspace src = colorspace sink /\ ycbcr_enc src = ycbcr_enc sink
  /\ quantization src = quantization sink /\ xfer_func src = xfer_func sink
  /\ forall format2 : v4l2_mbus_framefmt,
       let r2 := dcmipp_pixelproc_set_fmt (platform := ref_platform)
                   (res_dev r) (res_state r) PAD_SRC
                   V4L2_SUBDEV_FORMAT_ACTIVE format2 in
       res_ret r2 = 0
       /\ snd (dcmipp_pixelproc_get_fmt (res_dev r2) (res_state r2) PAD_SRC
                 V4L2_SUBDEV_FORMAT_ACTIVE)
          = dcmipp_pixelproc_adjust_fmt (platform := ref_platform) format2 PAD_SRC
       /\ snd (dcmipp_pixelproc_get_fmt (res_dev r2) (res_state r2) PAD_SINK
                 V4L2_SUBDEV_FORMAT_ACTIVE)
          = sink.
Proof.
  apply (set_fmt_sink_propagates_to_src (platform := ref_platform)
           (dcmipp_pixelproc_ent_init 1) ref_sd_state
           V4L2_SUBDEV_FORMAT_ACTIVE yuv_800x600).
  - right. reflexivity.
  - reflexivity.
Defined.

Lemma set_fmt_sink_active_resets_crop_compose_witness :
  let r := dcmipp_pixelproc_set_fmt (platform := ref_platform)
             (dcmipp_pixelproc_ent_init 1) ref_sd_state PAD_SINK
             V4L2_SUBDEV_FORMAT_ACTIVE yuv_800x600 in
  res_out r = dcmipp_pixelproc_adjust_fmt (platform := ref_platform)
                yuv_800x600 PAD_SINK
  /\ sink_fmt (res_dev r) = res_out r
  /\ crop (res_dev r) = mk_rect 0 0 (width (res_out r)) (height (res_out r))
  /\ compose (res_dev r) = mk_rect 0 0 (width (res_out r)) (height (res_out r)).
Proof.
  apply (proj1 (set_fmt_sink_active_resets_crop_compose (platform := ref_platform)
                  (dcmipp_pixelproc_ent_init 1) ref_sd_state yuv_800x600)).
  reflexivity.
Defined.

Lemma set_fmt_active_busy_is_atomic_witness :
  dcmipp_pixelproc_set_fmt (platform := ref_platform)
    (streaming_device 1) ref_sd_state PAD_SINK V4L2_SUBDEV_FORMAT_ACTIVE yuv_800x600
  = (- EBUSY, streaming_device 1, ref_sd_state, yuv_800x600).
Proof.
  apply (set_fmt_active_busy_is_atomic (platform := ref_platform)
           (streaming_device 1) ref_sd_state PAD_SINK yuv_800x600).
  reflexivity.
Defined.

(** * Further properties of the driver *)

(** ** Pixel format catalogue *)

Section Catalogue.

Context {platform : dcmipp_platform}.

Lemma pix_map_by_index_nth (p : pad) (i : Z) (e : dcmipp_pixelproc_pix_map) :
  0 <= i ->
  dcmipp_pixelproc_pix_map_by_index i p = Some e ->
  nth_error (pix_map_list p) (Z.to_nat i) = Some e
  /\ i < Z.of_nat (length (pix_map_list p)).
Proof.
  intros Hi. unfold dcmipp_pixelproc_pix_map_by_index.
  destruct (Z.leb_spec (Z.of_nat (length (pix_map_list p))) i) as [Hge|Hlt];
    [discriminate|].
  intro Hnth. split; assumption.
Qed.

Lemma pix_map_by_code_of_index
    (p : pad) (i : Z) (e : dcmipp_pixelproc_pix_map) :
  0 <= i ->
  dcmipp_pixelproc_pix_map_by_index i p = Some e ->
  dcmipp_pixelproc_pix_map_by_code (pm_code e) p = Some e.
Proof.
  intros Hi H. apply pix_map_by_index_nth in H; [|exact Hi].
  destruct H as [H _].
  remember (Z.to_nat i) as n eqn:E. clear E Hi i.
  destruct p; cbn in H;
    do 15 (destruct n as [|n]; cbn in H;
           [try discriminate; injection H as <-; reflexivity | try discriminate]).
Qed.

Lemma pix_map_by_code_enumerated
    (p : pad) (c : Z) (e : dcmipp_pixelproc_pix_map) :
  dcmipp_pixelproc_pix_map_by_code c p = Some e ->
  pm_code e = c
  /\ exists i, 0 <= i /\ dcmipp_pixelproc_pix_map_by_index i p = Some e.
Proof.
  unfold dcmipp_pixelproc_pix_map_by_code. intro H.
  apply find_some in H. destruct H as [Hin Hc].
  apply Z.eqb_eq in Hc. split; [exact Hc|].
  apply In_nth_error in Hin. destruct Hin as [n Hn].
  exists (Z.of_nat n). split; [lia|].
  unfold dcmipp_pixelproc_pix_map_by_index.
  assert (Hlt : (n < length (pix_map_list p))%nat).
  { apply nth_error_Some. rewrite Hn. discriminate. }
  destruct (Z.leb_spec (Z.of_nat (length (pix_map_list p))) (Z.of_nat n)) as [Hge|_];
    [lia|].
  rewrite Nat2Z.id. exact Hn.
Qed.

(** X1: an entry enumerated by index is the one found when its code is
    looked up on the same pad: no code occurs twice in a table. *)
Theorem pix_map_index_code_round_trip
    (p : pad) (i : Z) (e : dcmipp_pixelproc_pix_map) :
  0 <= i ->
  dcmipp_pixelproc_pix_map_by_index i p = Some e ->
  dcmipp_pixelproc_pix_map_by_code (pm_code e) p = Some e.
Proof. exact (pix_map_by_code_of_index p i e). Qed.

Lemma pix_map_index_code_round_trip_witness :
  dcmipp_pixelproc_pix_map_by_code MEDIA_BUS_FMT_YVYU8_2X8 PAD_SRC
  = Some (PIXMAP_MBUS_PPCR_SWAPUV MEDIA_BUS_FMT_YVYU8_2X8 DCMIPP_PxPPCR_FORMAT_YUYV 1).
Proof.
  apply (pix_map_index_code_round_trip PAD_SRC 4
           (PIXMAP_MBUS_PPCR_SWAPUV MEDIA_BUS_FMT_YVYU8_2X8 DCMIPP_PxPPCR_FORMAT_YUYV 1)).
  - lia.
  - reflexivity.
Defined.

(** X2: the frame size enumeration answers 0 exactly for index 0 and a
    code that the code enumeration of the same pad lists at some index; it
    then reports the frame limits.  Any other request gets -EINVAL and the
    structure back untouched. *)
Theorem enum_frame_size_iff_code_enumerated
    (p : pad) (fse : v4l2_subdev_frame_size_enum) :
  (fst (dcmipp_pixelproc_enum_frame_size p fse) = 0
   <-> fse_index fse = 0
       /\ exists i code_in,
            0 <= i
            /\ dcmipp_pixelproc_enum_mbus_code p i code_in = (0, fse_code fse))
  /\ (fst (dcmipp_pixelproc_enum_frame_size p fse) = 0 ->
      snd (dcmipp_pixelproc_enum_frame_size p fse)
      = mk_fse (fse_index fse) (fse_code fse)
          DCMIPP_FRAME_MIN_WIDTH DCMIPP_FRAME_MAX_WIDTH
          DCMIPP_FRAME_MIN_HEIGHT DCMIPP_FRAME_MAX_HEIGHT)
  /\ (fst (dcmipp_pixelproc_enum_frame_size p fse) <> 0 ->
      dcmipp_pixelproc_enum_frame_size p fse = (- EINVAL, fse)).
Proof.
  unfold dcmipp_pixelproc_enum_frame_size, dcmipp_pixelproc_enum_mbus_code.
  destruct (Z.eqb_spec (fse_index fse) 0) as [Hidx|Hidx]; cbn [negb].
  - destruct (dcmipp_pixelproc_pix_map_by_code (fse_code fse) p) as [e|] eqn:Hc;
      cbn [fst snd].
    + split; [|split]; [|reflexivity|intro Hne; exfalso; apply Hne; reflexivity].
      split; [|reflexivity].
      intros _. split; [exact Hidx|].
      apply pix_map_by_code_enumerated in Hc. destruct Hc as [Hcode (i & Hi & Hidxe)].
      exists i, 0. split; [exact Hi|]. rewrite Hidxe, Hcode. reflexivity.
    + split; [|split]; [|discriminate|reflexivity].
      split; [discriminate|].
      intros [_ (i & cin & Hi & He)].
      destruct (dcmipp_pixelproc_pix_map_by_index i p) as [e|] eqn:Hidxe;
        [|discriminate].
      apply pix_map_by_code_of_index in Hidxe; [|exact Hi].
      injection He as He. rewrite He in Hidxe. congruence.
  - cbn [fst snd]. split; [|split]; [|discriminate|reflexivity].
    split; [discriminate|]. intros [H0 _]. contradiction.
Qed.

End Catalogue.

Lemma enum_frame_size_iff_code_enumerated_witness :
  snd (dcmipp_pixelproc_enum_frame_size (platform := ref_platform) PAD_SINK
         (mk_fse 0 MEDIA_BUS_FMT_YUV8_1X24 0 0 0 0))
  = mk_fse 0 MEDIA_BUS_FMT_YUV8_1X24 16 4096 16 2160.
Proof.
  apply (proj1 (proj2 (enum_frame_size_iff_code_enumerated (platform := ref_platform)
                         PAD_SINK (mk_fse 0 MEDIA_BUS_FMT_YUV8_1X24 0 0 0 0)))).
  reflexivity.
Defined.

(** ** Format adjustment *)

Section FormatAdjust.

Context {platform : dcmipp_platform}.

Lemma u32_range (x : Z) : 0 <= u32 x < 2 ^ 32.
Proof. unfold u32. apply Z.mod_pos_bound. lia. Qed.

Lemma u32_idem (x : Z) : u32 (u32 x) = u32 x.
Proof. unfold u32. apply Z.mod_mod. lia. Qed.

Lemma clamp_t_u32_idem (v lo hi : Z) :
  clamp_t_u32 (clamp_t_u32 v lo hi) lo hi = clamp_t_u32 v lo hi.
Proof.
  unfold clamp_t_u32.
  pose proof (u32_range v). pose proof (u32_range lo). pose proof (u32_range hi).
  rewrite (u32_small (Z.min (Z.max (u32 v) (u32 lo)) (u32 hi))) by lia.
  lia.
Qed.

Lemma clamp_t_u32_bounds (v lo hi : Z) :
  0 <= lo <= hi -> hi < 2 ^ 32 -> lo <= clamp_t_u32 v lo hi <= hi.
Proof.
  intros Hlo Hhi. unfold clamp_t_u32.
  rewrite (u32_small lo), (u32_small hi) by lia. lia.
Qed.

Lemma default_code_in_table (p : pad) :
  dcmipp_pixelproc_pix_map_by_code
    (if IS_SRC p then PIXELPROC_MEDIA_BUS_SRC_FMT_DEFAULT
     else PIXELPROC_MEDIA_BUS_SINK_FMT_DEFAULT) p <> None.
Proof. destruct p; vm_compute; discriminate. Qed.

(** The three steps of [dcmipp_pixelproc_adjust_fmt] that precede the
    colorimetry clamp, read off the result. *)
Lemma adjust_fmt_fields (fmt : v4l2_mbus_framefmt) (p : pad) :
  colorimetry_only ->
  let r := dcmipp_pixelproc_adjust_fmt fmt p in
  code r = match dcmipp_pixelproc_pix_map_by_code (code fmt) p with
           | Some _ => code fmt
           | None => if IS_SRC p then PIXELPROC_MEDIA_BUS_SRC_FMT_DEFAULT
                     else PIXELPROC_MEDIA_BUS_SINK_FMT_DEFAULT
           end
  /\ width r = clamp_t_u32 (width fmt) DCMIPP_FRAME_MIN_WIDTH DCMIPP_FRAME_MAX_WIDTH
  /\ height r = clamp_t_u32 (height fmt) DCMIPP_FRAME_MIN_HEIGHT DCMIPP_FRAME_MAX_HEIGHT
  /\ field r = if (field fmt =? V4L2_FIELD_ANY) || (field fmt =? V4L2_FIELD_ALTERNATE)
               then V4L2_FIELD_NONE else field fmt.
Proof.
  intros Hc r. subst r. unfold dcmipp_pixelproc_adjust_fmt.
  match goal with |- context [dcmipp_colorimetry_clamp ?x] =>
    destruct (Hc x) as (-> & -> & -> & ->) end.
  destruct (dcmipp_pixelproc_pix_map_by_code (code fmt) p); cbn;
    destruct ((field fmt =? V4L2_FIELD_ANY) || (field fmt =? V4L2_FIELD_ALTERNATE));
    cbn; repeat split.
Qed.

(** X3: when the colorimetry clamp rewrites colorimetry fields only and
    the frame limits are ordered 32-bit values, an adjusted format has a
    code of the pad's table, a size within the frame limits and a field
    order that is neither ANY nor ALTERNATE. *)
Theorem adjust_fmt_postconditions (fmt : v4l2_mbus_framefmt) (p : pad) :
  colorimetry_only ->
  0 <= DCMIPP_FRAME_MIN_WIDTH <= DCMIPP_FRAME_MAX_WIDTH ->
  DCMIPP_FRAME_MAX_WIDTH < 2 ^ 32 ->
  0 <= DCMIPP_FRAME_MIN_HEIGHT <= DCMIPP_FRAME_MAX_HEIGHT ->
  DCMIPP_FRAME_MAX_HEIGHT < 2 ^ 32 ->
  let r := dcmipp_pixelproc_adjust_fmt fmt p in
  dcmipp_pixelproc_pix_map_by_code (code r) p <> None
  /\ DCMIPP_FRAME_MIN_WIDTH <= width r <= DCMIPP_FRAME_MAX_WIDTH
  /\ DCMIPP_FRAME_MIN_HEIGHT <= height r <= DCMIPP_FRAME_MAX_HEIGHT
  /\ field r <> V4L2_FIELD_ANY /\ field r <> V4L2_FIELD_ALTERNATE.
Proof.
  intros Hc Hw Hw32 Hh Hh32 r.
  destruct (adjust_fmt_fields fmt p Hc) as (Hcode & Hwd & Hht & Hfl).
  fold r in Hcode, Hwd, Hht, Hfl.
  rewrite Hcode, Hwd, Hht, Hfl. clear Hcode Hwd Hht Hfl.
  split; [|split; [|split]].
  - destruct (dcmipp_pixelproc_pix_map_by_code (code fmt) p) eqn:E.
    + rewrite E. discriminate.
    + apply default_code_in_table.
  - apply clamp_t_u32_bounds; assumption.
  - apply clamp_t_u32_bounds; assumption.
  - destruct (Z.eqb_spec (field fmt) V4L2_FIELD_ANY) as [E1|E1];
      destruct (Z.eqb_spec (field fmt) V4L2_FIELD_ALTERNATE) as [E2|E2];
      cbn; split; try discriminate; assumption.
Qed.

(** X4: when the colorimetry clamp rewrites colorimetry fields only and
    is idempotent, adjusting a format twice for the same pad gives the
    same result as adjusting it once. *)
Theorem adjust_fmt_idempotent (fmt : v4l2_mbus_framefmt) (p : pad) :
  colorimetry_only ->
  (forall f, dcmipp_colorimetry_clamp (dcmipp_colorimetry_clamp f)
             = dcmipp_colorimetry_clamp f) ->
  dcmipp_pixelproc_adjust_fmt (dcmipp_pixelproc_adjust_fmt fmt p) p
  = dcmipp_pixelproc_adjust_fmt fmt p.
Proof.
  intros Hc Hidem.
  destruct (adjust_fmt_fields fmt p Hc) as (Hcode & Hwd & Hht & Hfl).
  set (r := dcmipp_pixelproc_adjust_fmt fmt p) in *.
  assert (Hr : exists g, r = dcmipp_colorimetry_clamp g).
  { unfold r, dcmipp_pixelproc_adjust_fmt. eexists. reflexivity. }
  destruct Hr as [g Hg].
  assert (Hin : exists e, dcmipp_pixelproc_pix_map_by_code (code r) p = Some e).
  { rewrite Hcode.
    destruct (dcmipp_pixelproc_pix_map_by_code (code fmt) p) as [e|] eqn:E.
    - rewrite E. eauto.
    - pose proof (default_code_in_table p) as Hd.
      match goal with |- context [dcmipp_pixelproc_pix_map_by_code ?c p] =>
        destruct (dcmipp_pixelproc_pix_map_by_code c p) as [e|] eqn:E2 end;
        [eauto|contradiction]. }
  destruct Hin as [e He].
  assert (Hfield : (field r =? V4L2_FIELD_ANY) || (field r =? V4L2_FIELD_ALTERNATE) = false).
  { rewrite Hfl.
    destruct (Z.eqb_spec (field fmt) V4L2_FIELD_ANY) as [E1|E1];
      destruct (Z.eqb_spec (field fmt) V4L2_FIELD_ALTERNATE) as [E2|E2];
      cbn; try reflexivity.
    apply orb_false_iff. split; apply Z.eqb_neq; assumption. }
  assert (Hw : clamp_t_u32 (width r) DCMIPP_FRAME_MIN_WIDTH DCMIPP_FRAME_MAX_WIDTH
               = width r).
  { rewrite Hwd. apply clamp_t_u32_idem. }
  assert (Hh : clamp_t_u32 (height r) DCMIPP_FRAME_MIN_HEIGHT DCMIPP_FRAME_MAX_HEIGHT
               = height r).
  { rewrite Hht. apply clamp_t_u32_idem. }
  unfold dcmipp_pixelproc_adjust_fmt at 1. rewrite He.
  cbn [fmt_with_size field code width height].
  rewrite Hfield, Hw, Hh.
  replace (fmt_with_size r (width r) (height r)) with r by (destruct r; reflexivity).
  rewrite Hg. apply Hidem.
Qed.

End FormatAdjust.

Lemma ref_platform_colorimetry_only : colorimetry_only (platform := ref_platform).
Proof. intro f. repeat split. Qed.

Lemma adjust_fmt_postconditions_witness :
  let r := dcmipp_pixelproc_adjust_fmt (platform := ref_platform)
             (mk_framefmt 5000 3 MEDIA_BUS_FMT_SBGGR8_1X8 V4L2_FIELD_ALTERNATE 0 0 0 0)
             PAD_SRC in
  dcmipp_pixelproc_pix_map_by_code (code r) PAD_SRC <> None
  /\ 16 <= width r <= 4096
  /\ 16 <= height r <= 2160
  /\ field r <> V4L2_FIELD_ANY /\ field r <> V4L2_FIELD_ALTERNATE.
Proof.
  apply (adjust_fmt_postconditions (platform := ref_platform)
           (mk_framefmt 5000 3 MEDIA_BUS_FMT_SBGGR8_1X8 V4L2_FIELD_ALTERNATE 0 0 0 0)
           PAD_SRC ref_platform_colorimetry_only);
    vm_compute; try split; try discriminate; reflexivity.
Defined.

Lemma adjust_fmt_idempotent_witness :
  dcmipp_pixelproc_adjust_fmt (platform := ref_platform)
    (dcmipp_pixelproc_adjust_fmt (platform := ref_platform) yuv_800x600 PAD_SINK)
    PAD_SINK
  = dcmipp_pixelproc_adjust_fmt (platform := ref_platform) yuv_800x600 PAD_SINK.
Proof.
  apply (adjust_fmt_idempotent (platform := ref_platform) yuv_800x600 PAD_SINK
           ref_platform_colorimetry_only).
  intro f. reflexivity.
Defined.

(** ** Negotiation: formats and selections *)

Section Negotiation.

Context {platform : dcmipp_platform}.

(** X5: after a successful set_fmt on the sink pad with which = ACTIVE the
    code of the active source format is one the source table maps, to the
    packer format YUYV or RGB565 without swap, so the lookup done at stream
    start cannot miss. *)
Theorem set_fmt_sink_src_code_in_table
    (d : dcmipp_pixelproc_device) (st : v4l2_subdev_state)
    (format : v4l2_mbus_framefmt) :
  let r := dcmipp_pixelproc_set_fmt d st PAD_SINK V4L2_SUBDEV_FORMAT_ACTIVE format in
  res_ret r = 0 ->
  exists vpix,
    dcmipp_pixelproc_pix_map_by_code (code (src_fmt (res_dev r))) PAD_SRC = Some vpix
    /\ swap_uv vpix = 0
    /\ (ppcr_fmt vpix = DCMIPP_PxPPCR_FORMAT_YUYV
        \/ ppcr_fmt vpix = DCMIPP_PxPPCR_FORMAT_RGB565).
Proof.
  intros r Hret. apply set_fmt_active_ok_not_streaming in Hret. subst r.
  unfold dcmipp_pixelproc_set_fmt. rewrite Hret. cbn.
  destruct ((MEDIA_BUS_FMT_Y8_1X8 <=? code (dcmipp_pixelproc_adjust_fmt format PAD_SINK))
            && (code (dcmipp_pixelproc_adjust_fmt format PAD_SINK)
                <? MEDIA_BUS_FMT_SBGGR8_1X8));
    eexists; (split; [vm_compute; reflexivity|]); split; auto.
Qed.

(** X6: set_fmt keeps the two copies apart: with which = ACTIVE the try
    state comes back as it was, with any other which the device does. *)
Theorem set_fmt_which_separation
    (d : dcmipp_pixelproc_device) (st : v4l2_subdev_state) (p : pad) (which : Z)
    (format : v4l2_mbus_framefmt) :
  let r := dcmipp_pixelproc_set_fmt d st p which format in
  (which = V4L2_SUBDEV_FORMAT_ACTIVE -> res_state r = st)
  /\ (which <> V4L2_SUBDEV_FORMAT_ACTIVE -> res_dev r = d).
Proof.
  intro r. subst r. unfold dcmipp_pixelproc_set_fmt. split.
  - intros ->. cbn [Z.eqb V4L2_SUBDEV_FORMAT_ACTIVE andb].
    destruct (streaming d); [reflexivity|]. destruct p; reflexivity.
  - intro Hne. apply Z.eqb_neq in Hne. rewrite Hne. cbn [andb].
    destruct p; reflexivity.
Qed.

(** X7: set_selection keeps the two copies apart in the same way, for
    every pad and target. *)
Theorem set_selection_which_separation
    (d : dcmipp_pixelproc_device) (st : v4l2_subdev_state) (p : pad)
    (which target : Z) (r : v4l2_rect) :
  let res := dcmipp_pixelproc_set_selection d st p which target r in
  (which = V4L2_SUBDEV_FORMAT_ACTIVE -> res_state res = st)
  /\ (which <> V4L2_SUBDEV_FORMAT_ACTIVE -> res_dev res = d).
Proof.
  intro res. subst res. unfold dcmipp_pixelproc_set_selection.
  destruct p; cbn [IS_SRC pad_index Z.eqb negb]; [|split; reflexivity].
  split.
  - intros ->. cbn [Z.eqb V4L2_SUBDEV_FORMAT_ACTIVE].
    destruct (target =? V4L2_SEL_TGT_CROP); [reflexivity|].
    destruct (target =? V4L2_SEL_TGT_COMPOSE); reflexivity.
  - intro Hne. apply Z.eqb_neq in Hne. rewrite Hne.
    destruct (target =? V4L2_SEL_TGT_CROP); [reflexivity|].
    destruct (target =? V4L2_SEL_TGT_COMPOSE); reflexivity.
Qed.

(** X8: a selection on the source pad, or a set_selection whose target is
    neither CROP nor COMPOSE (the read-only bounds and default targets
    included), is refused with -EINVAL and nothing is changed, the
    caller's rectangle included; get_selection likewise refuses the source
    pad and unknown targets. *)
Theorem selection_rejects
    (d : dcmipp_pixelproc_device) (st : v4l2_subdev_state) (p : pad)
    (which target : Z) (r : v4l2_rect) :
  (p = PAD_SRC
   \/ (target <> V4L2_SEL_TGT_CROP /\ target <> V4L2_SEL_TGT_COMPOSE) ->
   dcmipp_pixelproc_set_selection d st p which target r = (- EINVAL, d, st, r))
  /\ (p = PAD_SRC
      \/ (target <> V4L2_SEL_TGT_CROP /\ target <> V4L2_SEL_TGT_COMPOSE
          /\ target <> V4L2_SEL_TGT_CROP_BOUNDS
          /\ target <> V4L2_SEL_TGT_CROP_DEFAULT) ->
      dcmipp_pixelproc_get_selection d st p which target r = (- EINVAL, r)).
Proof.
  split.
  - intros [-> | [H1 H2]]; unfold dcmipp_pixelproc_set_selection.
    + reflexivity.
    + apply Z.eqb_neq in H1, H2. rewrite H1, H2. destruct p; reflexivity.
  - intros [-> | (H1 & H2 & H3 & H4)]; unfold dcmipp_pixelproc_get_selection.
    + reflexivity.
    + apply Z.eqb_neq in H1, H2, H3, H4. rewrite H1, H2, H3, H4.
      destruct p; reflexivity.
Qed.

(** X9: setting the crop on the sink pad stores the adjusted rectangle as
    crop and as compose of the same which, gives the source format of that
    which the rectangle's size, and leaves the sink format alone; reading
    crop or compose back returns the rectangle handed to the caller. *)
Theorem set_selection_crop_sets_compose
    (d : dcmipp_pixelproc_device) (st : v4l2_subdev_state) (which : Z)
    (r r0 : v4l2_rect) :
  which = V4L2_SUBDEV_FORMAT_TRY \/ which = V4L2_SUBDEV_FORMAT_ACTIVE ->
  let res := dcmipp_pixelproc_set_selection d st PAD_SINK which V4L2_SEL_TGT_CROP r in
  let d' := res_dev res in
  let st' := res_state res in
  res_ret res = 0
  /\ res_out res
     = dcmipp_pixelproc_adjust_crop r (snd (dcmipp_pixelproc_get_fmt d st PAD_SINK which))
  /\ dcmipp_pixelproc_get_selection d' st' PAD_SINK which V4L2_SEL_TGT_CROP r0
     = (0, res_out res)
  /\ dcmipp_pixelproc_get_selection d' st' PAD_SINK which V4L2_SEL_TGT_COMPOSE r0
     = (0, res_out res)
  /\ snd (dcmipp_pixelproc_get_fmt d' st' PAD_SRC which)
     = fmt_with_size (snd (dcmipp_pixelproc_get_fmt d st PAD_SRC which))
         (r_width (res_out res)) (r_height (res_out res))
  /\ snd (dcmipp_pixelproc_get_fmt d' st' PAD_SINK which)
     = snd (dcmipp_pixelproc_get_fmt d st PAD_SINK which).
Proof.
  intros [-> | ->] res d' st'; subst d' st' res;
    unfold dcmipp_pixelproc_set_selection, dcmipp_pixelproc_get_selection,
      dcmipp_pixelproc_get_fmt;
    cbn; repeat split.
Qed.

(** X10: setting the compose on the sink pad, with a crop of non-negative
    size stored for the same which, stores a rectangle at left = top = 0
    whose width and height lie between crop / 64 (truncated) and crop; a
    request already inside that range is stored with its size unchanged.
    The crop is not touched, the source format of that which takes the
    compose size, and reading compose back returns the stored rectangle. *)
Theorem set_selection_compose_clamps
    (d : dcmipp_pixelproc_device) (st : v4l2_subdev_state) (which : Z)
    (r r0 : v4l2_rect) :
  which = V4L2_SUBDEV_FORMAT_TRY \/ which = V4L2_SUBDEV_FORMAT_ACTIVE ->
  let c := snd (dcmipp_pixelproc_get_selection d st PAD_SINK which V4L2_SEL_TGT_CROP r0) in
  0 <= r_width c -> 0 <= r_height c ->
  let res := dcmipp_pixelproc_set_selection d st PAD_SINK which V4L2_SEL_TGT_COMPOSE r in
  let d' := res_dev res in
  let st' := res_state res in
  let out := res_out res in
  res_ret res = 0
  /\ left out = 0 /\ top out = 0
  /\ r_width c / 64 <= r_width out <= r_width c
  /\ r_height c / 64 <= r_height out <= r_height c
  /\ (r_width c / 64 <= r_width r <= r_width c -> r_width out = r_width r)
  /\ (r_height c / 64 <= r_height r <= r_height c -> r_height out = r_height r)
  /\ dcmipp_pixelproc_get_selection d' st' PAD_SINK which V4L2_SEL_TGT_COMPOSE r0
     = (0, out)
  /\ dcmipp_pixelproc_get_selection d' st' PAD_SINK which V4L2_SEL_TGT_CROP r0
     = (0, c)
  /\ snd (dcmipp_pixelproc_get_fmt d' st' PAD_SRC which)
     = fmt_with_size (snd (dcmipp_pixelproc_get_fmt d st PAD_SRC which))
         (r_width out) (r_height out).
Proof.
  assert (Hclamp : forall req cd, 0 <= cd ->
            cd / 64 <= compose_clamp req cd <= cd
            /\ (cd / 64 <= req <= cd -> compose_clamp req cd = req)).
  { intros req cd Hcd. unfold compose_clamp, DCMIPP_MAX_DOWNSCALE_RATIO.
    assert (cd / 64 <= cd) by (apply Z.div_le_upper_bound; lia).
    destruct (Z.ltb_spec cd req); [lia|].
    destruct (Z.ltb_spec req (cd / 64)); lia. }
  intros [-> | ->] c Hw Hh res d' st' out; subst out d' st' res c;
    unfold dcmipp_pixelproc_set_selection, dcmipp_pixelproc_get_selection,
      dcmipp_pixelproc_get_fmt in *;
    cbn in *;
    match goal with
    | |- context [compose_clamp (r_width r) ?cw] =>
        destruct (Hclamp (r_width r) cw Hw) as [Hb1 He1]
    end;
    match goal with
    | |- context [compose_clamp (r_height r) ?ch] =>
        destruct (Hclamp (r_height r) ch Hh) as [Hb2 He2]
    end;
    repeat split; try tauto; try lia.
Qed.

End Negotiation.

Lemma set_fmt_sink_src_code_in_table_witness :
  exists vpix,
    dcmipp_pixelproc_pix_map_by_code
      (code (src_fmt (res_dev (dcmipp_pixelproc_set_fmt (platform := ref_platform)
                                 (dcmipp_pixelproc_ent_init 1) ref_sd_state PAD_SINK
                                 V4L2_SUBDEV_FORMAT_ACTIVE yuv_800x600))))
      PAD_SRC = Some vpix
    /\ swap_uv vpix = 0
    /\ (ppcr_fmt vpix = DCMIPP_PxPPCR_FORMAT_YUYV
        \/ ppcr_fmt vpix = DCMIPP_PxPPCR_FORMAT_RGB565).
Proof.
  apply (set_fmt_sink_src_code_in_table (platform := ref_platform)
           (dcmipp_pixelproc_ent_init 1) ref_sd_state yuv_800x600).
  reflexivity.
Defined.

Lemma set_fmt_which_separation_witness :
  res_state (dcmipp_pixelproc_set_fmt (platform := ref_platform)
               (dcmipp_pixelproc_ent_init 1) ref_sd_state PAD_SINK
               V4L2_SUBDEV_FORMAT_ACTIVE yuv_800x600) = ref_sd_state
  /\ res_dev (dcmipp_pixelproc_set_fmt (platform := ref_platform)
                (dcmipp_pixelproc_ent_init 1) ref_sd_state PAD_SINK
                V4L2_SUBDEV_FORMAT_TRY yuv_800x600) = dcmipp_pixelproc_ent_init 1.
Proof.
  split.
  - apply (proj1 (set_fmt_which_separation (platform := ref_platform)
                    (dcmipp_pixelproc_ent_init 1) ref_sd_state PAD_SINK
                    V4L2_SUBDEV_FORMAT_ACTIVE yuv_800x600)).
    reflexivity.
  - apply (proj2 (set_fmt_which_separation (platform := ref_platform)
                    (dcmipp_pixelproc_ent_init 1) ref_sd_state PAD_SINK
                    V4L2_SUBDEV_FORMAT_TRY yuv_800x600)).
    discriminate.
Defined.

Lemma set_selection_which_separation_witness :
  res_state (dcmipp_pixelproc_set_selection (platform := ref_platform)
               (dcmipp_pixelproc_ent_init 1) ref_sd_state PAD_SINK
               V4L2_SUBDEV_FORMAT_ACTIVE V4L2_SEL_TGT_CROP (mk_rect 8 8 320 240))
  = ref_sd_state
  /\ res_dev (dcmipp_pixelproc_set_selection (platform := ref_platform)
                (dcmipp_pixelproc_ent_init 1) ref_sd_state PAD_SINK
                V4L2_SUBDEV_FORMAT_TRY V4L2_SEL_TGT_CROP (mk_rect 8 8 320 240))
     = dcmipp_pixelproc_ent_init 1.
Proof.
  split.
  - apply (proj1 (set_selection_which_separation (platform := ref_platform)
                    (dcmipp_pixelproc_ent_init 1) ref_sd_state PAD_SINK
                    V4L2_SUBDEV_FORMAT_ACTIVE V4L2_SEL_TGT_CROP (mk_rect 8 8 320 240))).
    reflexivity.
  - apply (proj2 (set_selection_which_separation (platform := ref_platform)
                    (dcmipp_pixelproc_ent_init 1) ref_sd_state PAD_SINK
                    V4L2_SUBDEV_FORMAT_TRY V4L2_SEL_TGT_CROP (mk_rect 8 8 320 240))).
    discriminate.
Defined.

Lemma selection_rejects_witness :
  dcmipp_pixelproc_set_selection (platform := ref_platform)
    (dcmipp_pixelproc_ent_init 1) ref_sd_state PAD_SINK V4L2_SUBDEV_FORMAT_ACTIVE
    V4L2_SEL_TGT_CROP_BOUNDS (mk_rect 0 0 320 240)
  = (- EINVAL, dcmipp_pixelproc_ent_init 1, ref_sd_state, mk_rect 0 0 320 240)
  /\ dcmipp_pixelproc_get_selection
       (dcmipp_pixelproc_ent_init 1) ref_sd_state PAD_SRC V4L2_SUBDEV_FORMAT_ACTIVE
       V4L2_SEL_TGT_CROP (mk_rect 1 2 3 4)
     = (- EINVAL, mk_rect 1 2 3 4).
Proof.
  split.
  - apply (proj1 (selection_rejects (platform := ref_platform)
                    (dcmipp_pixelproc_ent_init 1) ref_sd_state PAD_SINK
                    V4L2_SUBDEV_FORMAT_ACTIVE V4L2_SEL_TGT_CROP_BOUNDS
                    (mk_rect 0 0 320 240))).
    right. split; discriminate.
  - apply (proj2 (selection_rejects (platform := ref_platform)
                    (dcmipp_pixelproc_ent_init 1) ref_sd_state PAD_SRC
                    V4L2_SUBDEV_FORMAT_ACTIVE V4L2_SEL_TGT_CROP (mk_rect 1 2 3 4))).
    left. reflexivity.
Defined.

Lemma set_selection_crop_sets_compose_witness :
  let d := dcmipp_pixelproc_ent_init 1 in
  let which := V4L2_SUBDEV_FORMAT_ACTIVE in
  let r0 := mk_rect 0 0 0 0 in
  let res := dcmipp_pixelproc_set_selection (platform := ref_platform) d ref_sd_state
               PAD_SINK which V4L2_SEL_TGT_CROP (mk_rect 600 8 320 4) in
  let d' := res_dev res in
  let st' := res_state res in
  res_ret res = 0
  /\ res_out res
     = dcmipp_pixelproc_adjust_crop (platform := ref_platform) (mk_rect 600 8 320 4)
         (snd (dcmipp_pixelproc_get_fmt d ref_sd_state PAD_SINK which))
  /\ dcmipp_pixelproc_get_selection d' st' PAD_SINK which V4L2_SEL_TGT_CROP r0
     = (0, res_out res)
  /\ dcmipp_pixelproc_get_selection d' st' PAD_SINK which V4L2_SEL_TGT_COMPOSE r0
     = (0, res_out res)
  /\ snd (dcmipp_pixelproc_get_fmt d' st' PAD_SRC which)
     = fmt_with_size (snd (dcmipp_pixelproc_get_fmt d ref_sd_state PAD_SRC which))
         (r_width (res_out res)) (r_height (res_out res))
  /\ snd (dcmipp_pixelproc_get_fmt d' st' PAD_SINK which)
     = snd (dcmipp_pixelproc_get_fmt d ref_sd_state PAD_SINK which).
Proof.
  apply (set_selection_crop_sets_compose (platform := ref_platform)
           (dcmipp_pixelproc_ent_init 1) ref_sd_state V4L2_SUBDEV_FORMAT_ACTIVE
           (mk_rect 600 8 320 4) (mk_rect 0 0 0 0)).
  right. reflexivity.
Defined.

Lemma set_selection_compose_clamps_witness :
  let res := dcmipp_pixelproc_set_selection (platform := ref_platform)
               (dcmipp_pixelproc_ent_init 1) ref_sd_state PAD_SINK
               V4L2_SUBDEV_FORMAT_ACTIVE V4L2_SEL_TGT_COMPOSE (mk_rect 5 5 2 1000) in
  res_ret res = 0
  /\ left (res_out res) = 0 /\ top (res_out res) = 0
  /\ 640 / 64 <= r_width (res_out res) <= 640
  /\ 480 / 64 <= r_height (res_out res) <= 480.
Proof.
  pose proof (set_selection_compose_clamps (platform := ref_platform)
                (dcmipp_pixelproc_ent_init 1) ref_sd_state V4L2_SUBDEV_FORMAT_ACTIVE
                (mk_rect 5 5 2 1000) (mk_rect 0 0 0 0) (or_intror eq_refl)) as H.
  cbv zeta in H.
  specialize (H ltac:(vm_compute; discriminate) ltac:(vm_compute; discriminate)).
  destruct H as (H1 & H2 & H3 & H4 & H5 & _).
  repeat split; first [exact H1 | exact H2 | exact H3 | apply H4 | apply H5].
Defined.

(** ** Scaler planner: the decimation loop and the identity plan *)

Lemma decimation_loop_spec (fuel : nat) :
  forall limit dec post_dec dec' post_dec',
    0 <= post_dec -> 0 <= dec -> dec + Z.of_nat fuel < 2 ^ 32 ->
    decimation_loop fuel limit dec post_dec = Some (dec', post_dec') ->
    exists n : nat,
      (n <= fuel)%nat
      /\ dec' = dec + Z.of_nat n
      /\ post_dec' = post_dec / 2 ^ Z.of_nat n
      /\ post_dec' <= limit
      /\ forall m : nat, (m < n)%nat -> limit < post_dec / 2 ^ Z.of_nat m.
Proof.
  induction fuel as [|fuel IH]; intros limit dec post dec' post' Hp Hd Hf; simpl;
    destruct (Z.ltb_spec limit post) as [Hlt|Hge]; try discriminate.
  - intro H. injection H as <- <-. exists 0%nat.
    change (2 ^ Z.of_nat 0) with 1. rewrite Z.div_1_r.
    repeat split; try lia; intros m Hm; lia.
  - intro H.
    rewrite u32_small in H by lia.
    apply IH in H; [|apply Z.div_pos; lia|lia|lia].
    destruct H as (n & Hn & Hdec & Hpost & Hle & Hmin).
    exists (S n). rewrite Nat2Z.inj_succ, Z.pow_succ_r by lia.
    repeat split; try lia.
    + rewrite Hpost. apply Z.div_div; lia.
    + intros [|m] Hm.
      * change (2 ^ Z.of_nat 0) with 1. rewrite Z.div_1_r. exact Hlt.
      * rewrite Nat2Z.inj_succ, Z.pow_succ_r by lia.
        rewrite <- Z.div_div by lia. apply Hmin. lia.
  - intro H. injection H as <- <-. exists 0%nat.
    change (2 ^ Z.of_nat 0) with 1. rewrite Z.div_1_r.
    repeat split; try lia; intros m Hm; lia.
Qed.

(** X11: for a 32-bit dimension the decimation loop always ends; it
    returns the least number of halvings [dec] after which the dimension,
    [post_dec / 2 ^ dec] rounded down, no longer exceeds the limit. *)
Theorem decimation_least_halvings (limit post_dec : Z) :
  0 <= limit -> 0 <= post_dec < 2 ^ 32 ->
  exists dec' post_dec',
    decimation limit post_dec = Some (dec', post_dec')
    /\ 0 <= dec' <= 32
    /\ post_dec' = post_dec / 2 ^ dec'
    /\ post_dec' <= limit
    /\ forall m, 0 <= m < dec' -> limit < post_dec / 2 ^ m.
Proof.
  intros Hl Hp.
  destruct (decimation_total limit post_dec Hl Hp) as (dec' & post' & H).
  exists dec', post'. split; [exact H|].
  unfold decimation in H.
  apply decimation_loop_spec in H; [|lia|lia|vm_compute; reflexivity].
  destruct H as (n & Hn & -> & -> & Hle & Hmin).
  cbn [Z.add]. repeat split; try lia.
  intros m Hm. replace m with (Z.of_nat (Z.to_nat m)) by lia.
  apply Hmin. lia.
Qed.

Lemma decimation_least_halvings_witness :
  exists dec' post_dec',
    decimation 80 700 = Some (dec', post_dec')
    /\ 0 <= dec' <= 32
    /\ post_dec' = 700 / 2 ^ dec'
    /\ post_dec' <= 80
    /\ forall m, 0 <= m < dec' -> 80 < 700 / 2 ^ m.
Proof.
  apply (decimation_least_halvings 80 700); lia.
Defined.

Lemma decimation_no_halving (limit post_dec : Z) :
  post_dec <= limit -> decimation limit post_dec = Some (0, post_dec).
Proof.
  intro H. unfold decimation.
  change (decimation_loop 32 limit 0 post_dec)
    with (if limit <? post_dec
          then decimation_loop 31 limit (u32 (0 + 1)) (post_dec / 2)
          else Some (0, post_dec)).
  destruct (Z.ltb_spec limit post_dec); [lia|reflexivity].
Qed.

(** X12: whenever compose equals crop, with both dimensions between 1 and
    2^19 - 1, the planner decimates nothing and returns the ratio 8192 and
    the divider 1023 (1024 clamped) in both directions. *)
Theorem downscale_factors_same_size (w h : Z) :
  0 < w < 2 ^ 19 -> 0 < h < 2 ^ 19 ->
  downscale_factors w h w h = Some (mk_downscale 0 0 8192 8192 1023 1023).
Proof.
  intros Hw Hh.
  unfold downscale_factors, DCMIPP_MAX_DOWNSIZE_RATIO,
    DCMIPP_PIXELPROC_HVRATIO_CONS, DCMIPP_PIXELPROC_HVDIV_CONS.
  rewrite (u32_small (w * 8)), (u32_small (h * 8)) by lia.
  rewrite (decimation_no_halving (w * 8) w), (decimation_no_halving (h * 8) h) by lia.
  cbn [obind].
  rewrite (u32_small (w * 8192)), (u32_small (h * 8192)),
    (u32_small (1024 * w)), (u32_small (1024 * h)) by lia.
  unfold udiv.
  destruct (Z.eqb_spec w 0); [lia|]. destruct (Z.eqb_spec h 0); [lia|].
  cbn [obind].
  rewrite (Z.mul_comm w 8192), (Z.mul_comm h 8192).
  rewrite !Z.div_mul by lia.
  reflexivity.
Qed.

Lemma downscale_factors_same_size_witness :
  downscale_factors 1920 1080 1920 1080
  = Some (mk_downscale 0 0 8192 8192 1023 1023).
Proof.
  apply (downscale_factors_same_size 1920 1080); lia.
Defined.

(** ** Stream start *)

Section StreamStart.

Context {platform : dcmipp_platform}.

(** A crop within [2 ^ k] times eight times the compose is decimated at
    most [k] times. *)
Lemma downscale_factors_dec_le
    (k : nat) (crop_w crop_h compose_w compose_h : Z) (f : downscale) :
  0 <= compose_w < 2 ^ 29 -> 0 <= compose_h < 2 ^ 29 ->
  crop_w <= 2 ^ Z.of_nat k * (compose_w * 8) ->
  crop_h <= 2 ^ Z.of_nat k * (compose_h * 8) ->
  downscale_factors crop_w crop_h compose_w compose_h = Some f ->
  0 <= hdec f <= Z.of_nat k /\ 0 <= vdec f <= Z.of_nat k.
Proof.
  intros Hw Hh Hcw Hch. unfold downscale_factors, DCMIPP_MAX_DOWNSIZE_RATIO.
  rewrite (u32_small (compose_w * 8)) by lia.
  rewrite (u32_small (compose_h * 8)) by lia.
  destruct (decimation _ crop_w) as [[hd hp]|] eqn:Hhd; simpl; [|discriminate].
  destruct (decimation _ crop_h) as [[vd vp]|] eqn:Hvd; simpl; [|discriminate].
  destruct (udiv _ compose_w) as [hr|]; simpl; [|discriminate].
  destruct (udiv _ compose_h) as [vr|]; simpl; [|discriminate].
  destruct (udiv _ hp) as [hv|]; simpl; [|discriminate].
  destruct (udiv _ vp) as [vv|]; simpl; [|discriminate].
  intro H. injection H as <-. simpl.
  unfold decimation in Hhd, Hvd.
  apply (decimation_loop_dec_bound 32 k) in Hhd; [|lia|lia|exact Hcw].
  apply (decimation_loop_dec_bound 32 k) in Hvd; [|lia|lia|exact Hch].
  lia.
Qed.

Lemma compose_clamp_floor (req crop_dim : Z) :
  64 <= crop_dim ->
  1 <= compose_clamp req crop_dim <= crop_dim
  /\ crop_dim <= 2 ^ 4 * (compose_clamp req crop_dim * 8).
Proof.
  intro Hc. unfold compose_clamp, DCMIPP_MAX_DOWNSCALE_RATIO.
  assert (H1 : 1 <= crop_dim / 64) by (apply Z.div_le_lower_bound; lia).
  assert (H2 : crop_dim / 64 <= crop_dim) by (apply Z.div_le_upper_bound; lia).
  assert (H3 : crop_dim < 64 * (crop_dim / 64 + 1)).
  { pose proof (Z.mul_succ_div_gt crop_dim 64 ltac:(lia)). lia. }
  change (2 ^ 4) with 16.
  destruct (Z.ltb_spec crop_dim req); [lia|].
  destruct (Z.ltb_spec req (crop_dim / 64)); lia.
Qed.

Lemma s_stream_returns_when_planned
    (d : dcmipp_pixelproc_device) (enable : Z) (f : downscale) :
  downscale_factors (r_width (crop d)) (r_height (crop d))
    (r_width (compose d)) (r_height (compose d)) = Some f ->
  exists ret d', dcmipp_pixelproc_s_stream d enable = Some (ret, d').
Proof.
  intro Hf. unfold dcmipp_pixelproc_s_stream.
  destruct (enable =? 0); [eauto|].
  unfold dcmipp_pixelproc_set_downscale, dcmipp_pixelproc_configure_framerate.
  cbn [crop compose reg_do pipe_id]. rewrite Hf. cbn [obind].
  destruct (pipe_id d =? 1).
  - destruct (dcmipp_pixelproc_colorconv_config _) as [ret d1].
    destruct (negb (ret =? 0)); [eauto|].
    destruct (setup_pixel_packer d1) as [ret2 d2]. eauto.
  - destruct (setup_pixel_packer _) as [ret2 d2]. eauto.
Qed.

(** X13: with an active crop of at least 64 (and less than 2^29) in both
    dimensions, whatever compose rectangle is requested, the compose that
    set_selection stores lets the planner run: it returns factors with at
    most four halvings per direction, and starting the stream returns
    instead of dividing by zero. *)
Theorem stream_start_safe_after_compose
    (d : dcmipp_pixelproc_device) (st : v4l2_subdev_state) (r : v4l2_rect)
    (enable : Z) :
  64 <= r_width (crop d) < 2 ^ 29 ->
  64 <= r_height (crop d) < 2 ^ 29 ->
  let d' := res_dev (dcmipp_pixelproc_set_selection d st PAD_SINK
                       V4L2_SUBDEV_FORMAT_ACTIVE V4L2_SEL_TGT_COMPOSE r) in
  (exists f,
      downscale_factors (r_width (crop d')) (r_height (crop d'))
        (r_width (compose d')) (r_height (compose d')) = Some f
      /\ 0 <= hdec f <= 4 /\ 0 <= vdec f <= 4)
  /\ exists ret d'', dcmipp_pixelproc_s_stream d' enable = Some (ret, d'').
Proof.
  intros Hw Hh d'.
  assert (Hplan : exists f,
             downscale_factors (r_width (crop d')) (r_height (crop d'))
               (r_width (compose d')) (r_height (compose d')) = Some f
             /\ 0 <= hdec f <= 4 /\ 0 <= vdec f <= 4).
  { subst d'. unfold dcmipp_pixelproc_set_selection. cbn.
    destruct (compose_clamp_floor (r_width r) (r_width (crop d))) as [Hb1 Hk1]; [lia|].
    destruct (compose_clamp_floor (r_height r) (r_height (crop d))) as [Hb2 Hk2]; [lia|].
    destruct (downscale_factors_total (r_width (crop d)) (r_height (crop d))
                (compose_clamp (r_width r) (r_width (crop d)))
                (compose_clamp (r_height r) (r_height (crop d)))) as [f Hf]; try lia.
    exists f. split; [exact Hf|].
    apply (downscale_factors_dec_le 4) in Hf; try lia. }
  split; [exact Hplan|].
  destruct Hplan as (f & Hf & _).
  eapply s_stream_returns_when_planned. exact Hf.
Qed.

End StreamStart.

Lemma stream_start_safe_after_compose_witness :
  let d' := res_dev (dcmipp_pixelproc_set_selection (platform := ref_platform)
                       (dcmipp_pixelproc_ent_init 2) ref_sd_state PAD_SINK
                       V4L2_SUBDEV_FORMAT_ACTIVE V4L2_SEL_TGT_COMPOSE
                       (mk_rect 0 0 0 0)) in
  (exists f,
      downscale_factors (r_width (crop d')) (r_height (crop d'))
        (r_width (compose d')) (r_height (compose d')) = Some f
      /\ 0 <= hdec f <= 4 /\ 0 <= vdec f <= 4)
  /\ exists ret d'',
       dcmipp_pixelproc_s_stream (platform := ref_platform) d' 1 = Some (ret, d'').
Proof.
  apply (stream_start_safe_after_compose (platform := ref_platform)
           (dcmipp_pixelproc_ent_init 2) ref_sd_state (mk_rect 0 0 0 0) 1);
    vm_compute; (split; [discriminate | reflexivity]).
Defined.

(** ** Stream start leaves the negotiated state alone *)

Section StreamTrace.

Context {platform : dcmipp_platform}.

Lemma fold_reg_do_fields (l : list reg_access) :
  forall d,
    fold_left reg_do l d
    = mk_pixelproc (sink_fmt d) (src_fmt d) (streaming d) (regs d ++ l) (pipe_id d)
        (src_interval d) (sink_interval d) (frate d) (src_code d) (crop d) (compose d).
Proof.
  induction l as [|a l IH]; intro d; simpl.
  - rewrite app_nil_r. destruct d; reflexivity.
  - rewrite IH. simpl. rewrite <- app_assoc. reflexivity.
Qed.

Lemma fold_reg_do_app (l1 l2 : list reg_access) (d : dcmipp_pixelproc_device) :
  fold_left reg_do l2 (fold_left reg_do l1 d) = fold_left reg_do (l1 ++ l2) d.
Proof. symmetry. apply fold_left_app. Qed.

Lemma set_downscale_appends (d d' : dcmipp_pixelproc_device) :
  dcmipp_pixelproc_set_downscale d = Some d' ->
  exists l, d' = fold_left reg_do l d.
Proof.
  unfold dcmipp_pixelproc_set_downscale.
  destruct (downscale_factors _ _ _ _) as [f|]; cbn [obind]; [|discriminate].
  intro H. injection H as <-.
  destruct (negb (hdec f =? 0) || negb (vdec f =? 0)).
  - eexists [_; _; _; _; _; _]. reflexivity.
  - eexists [_; _; _; _; _]. reflexivity.
Qed.

Lemma write_conv_matrix_appends (m : list Z) (n : nat) :
  forall d i, exists l, write_conv_matrix d m n i = fold_left reg_do l d.
Proof.
  induction n as [|n IH]; intros d i; cbn [write_conv_matrix].
  - exists []. reflexivity.
  - destruct (IH (reg_do d (reg_write (DCMIPP_P1YUVRR1 + 4 * i) (nth (Z.to_nat i) m 0)))
                (i + 1)) as [l Hl].
    rewrite Hl. eexists (_ :: l). reflexivity.
Qed.

Lemma colorconv_config_appends (d : dcmipp_pixelproc_device) :
  exists l, snd (dcmipp_pixelproc_colorconv_config d) = fold_left reg_do l d.
Proof.
  unfold dcmipp_pixelproc_colorconv_config.
  destruct (dcmipp_colorconv_configure _ _) as [ret cc].
  destruct (negb (ret =? 0)); cbn [snd].
  - exists []. reflexivity.
  - destruct (write_conv_matrix_appends (conv_matrix cc) 6 d 0) as [l Hl].
    rewrite Hl. eexists (l ++ [_]). rewrite fold_left_app. reflexivity.
Qed.

Lemma setup_pixel_packer_appends (d : dcmipp_pixelproc_device) :
  exists l, snd (setup_pixel_packer d) = fold_left reg_do l d.
Proof.
  unfold setup_pixel_packer.
  destruct (dcmipp_pixelproc_pix_map_by_code _ _) as [vpix|].
  - destruct (v4l2_ctrl_handler_setup _) as [ret accesses]. cbn [snd].
    eexists (_ :: accesses). reflexivity.
  - exists []. reflexivity.
Qed.

Lemma s_stream_appends (d d' : dcmipp_pixelproc_device) (enable ret : Z) :
  dcmipp_pixelproc_s_stream d enable = Some (ret, d') ->
  (enable = 0 /\ d' = d)
  \/ (enable <> 0
      /\ exists l,
           d' = fold_left reg_do
                  (reg_clear (DCMIPP_PxFCTCR (pipe_id d)) DCMIPP_PxFCTCR_FRATE_MASK
                   :: reg_set (DCMIPP_PxFCTCR (pipe_id d)) (frate d) :: l) d).
Proof.
  unfold dcmipp_pixelproc_s_stream.
  destruct (Z.eqb_spec enable 0) as [He|He].
  { intro H. injection H as _ <-. left. split; [exact He|reflexivity]. }
  intro H. right. split; [exact He|].
  unfold dcmipp_pixelproc_configure_framerate in H.
  cbn [pipe_id reg_do crop frate] in H.
  match type of H with
  | (obind (dcmipp_pixelproc_set_downscale ?d3) _) = _ =>
      assert (H3 : exists a1 a2,
                 d3 = fold_left reg_do
                        [reg_clear (DCMIPP_PxFCTCR (pipe_id d)) DCMIPP_PxFCTCR_FRATE_MASK;
                         reg_set (DCMIPP_PxFCTCR (pipe_id d)) (frate d); a1; a2] d)
        by (eexists; eexists; reflexivity);
      destruct (dcmipp_pixelproc_set_downscale d3) as [d4|] eqn:Hds;
        [|discriminate];
      destruct H3 as (a1 & a2 & H3); rewrite H3 in Hds
  end.
  apply set_downscale_appends in Hds. destruct Hds as [l4 Hd4].
  rewrite fold_reg_do_app in Hd4. cbn [obind] in H.
  destruct (pipe_id d =? 1).
  - destruct (colorconv_config_appends d4) as [l5 Hl5].
    destruct (dcmipp_pixelproc_colorconv_config d4) as [r5 d5]. cbn [snd] in Hl5.
    rewrite Hd4, fold_reg_do_app in Hl5.
    destruct (negb (r5 =? 0)).
    + injection H as _ <-. subst d5. cbn [app]. eexists. reflexivity.
    + destruct (setup_pixel_packer_appends d5) as [l6 Hl6].
      destruct (setup_pixel_packer d5) as [r6 d6]. cbn [snd] in Hl6.
      injection H as _ <-. rewrite Hl6, Hl5, fold_reg_do_app. cbn [app].
      eexists. reflexivity.
  - destruct (setup_pixel_packer_appends d4) as [l6 Hl6].
    destruct (setup_pixel_packer d4) as [r6 d6]. cbn [snd] in Hl6.
    injection H as _ <-. rewrite Hl6, Hd4, fold_reg_do_app. cbn [app].
    eexists. reflexivity.
Qed.

(** X14: whatever s_stream returns, the device it leaves differs from the
    one it received by register accesses appended to the trace only:
    formats, crop, compose, intervals, frame-skip code, pipe id and the
    streaming flag are unchanged.  A stop request appends nothing; a start
    request always begins by clearing the frame-rate field and setting the
    stored frame-skip code. *)
Theorem s_stream_only_appends_accesses
    (d d' : dcmipp_pixelproc_device) (enable ret : Z) :
  dcmipp_pixelproc_s_stream d enable = Some (ret, d') ->
  exists l,
    regs d' = regs d ++ l
    /\ sink_fmt d' = sink_fmt d /\ src_fmt d' = src_fmt d
    /\ crop d' = crop d /\ compose d' = compose d
    /\ sink_interval d' = sink_interval d /\ src_interval d' = src_interval d
    /\ frate d' = frate d /\ pipe_id d' = pipe_id d /\ src_code d' = src_code d
    /\ streaming d' = streaming d
    /\ (enable = 0 -> l = [])
    /\ (enable <> 0 ->
        exists l',
          l = reg_clear (DCMIPP_PxFCTCR (pipe_id d)) DCMIPP_PxFCTCR_FRATE_MASK
              :: reg_set (DCMIPP_PxFCTCR (pipe_id d)) (frate d) :: l').
Proof.
  intro H. apply s_stream_appends in H.
  destruct H as [[He ->] | [He [l ->]]].
  - exists []. rewrite app_nil_r. repeat split; try reflexivity. intro; contradiction.
  - eexists. rewrite fold_reg_do_fields. cbn.
    repeat split; try reflexivity.
    + intro; contradiction.
    + intros _. eexists. reflexivity.
Qed.

End StreamTrace.

Lemma s_stream_only_appends_accesses_witness :
  let d := dcmipp_pixelproc_ent_init 2 in
  exists d',
    dcmipp_pixelproc_s_stream (platform := ref_platform) d 1 = Some (0, d')
    /\ exists l,
         regs d' = regs d ++ l
         /\ sink_fmt d' = sink_fmt d /\ src_fmt d' = src_fmt d
         /\ crop d' = crop d /\ compose d' = compose d
         /\ sink_interval d' = sink_interval d /\ src_interval d' = src_interval d
         /\ frate d' = frate d /\ pipe_id d' = pipe_id d /\ src_code d' = src_code d
         /\ streaming d' = streaming d
         /\ (1 = 0 -> l = [])
         /\ (1 <> 0 ->
             exists l',
               l = reg_clear (DCMIPP_PxFCTCR (pipe_id d)) DCMIPP_PxFCTCR_FRATE_MASK
                   :: reg_set (DCMIPP_PxFCTCR (pipe_id d)) (frate d) :: l').
Proof.
  intro d. eexists. split.
  - vm_compute. reflexivity.
  - apply (s_stream_only_appends_accesses (platform := ref_platform) d _ 1 0).
    vm_compute. reflexivity.
Defined.

(** ** Register packing of the downsize block *)

Section RegisterFields.

Lemma land_shiftl_disjoint (a b n : Z) :
  0 <= n -> 0 <= a < 2 ^ n -> Z.land a (Z.shiftl b n) = 0.
Proof.
  intros Hn Ha. apply Z.bits_inj'. intros k Hk.
  rewrite Z.land_spec, Z.bits_0.
  destruct (Z.lt_ge_cases k n) as [Hlt|Hge].
  - rewrite Z.shiftl_spec_low by exact Hlt. apply andb_false_r.
  - replace a with (a mod 2 ^ n) by (apply Z.mod_small; exact Ha).
    rewrite Z.mod_pow2_bits_high by lia. reflexivity.
Qed.

Lemma lor_shiftl_add (a b n : Z) :
  0 <= n -> 0 <= a < 2 ^ n -> Z.lor a (Z.shiftl b n) = a + b * 2 ^ n.
Proof.
  intros Hn Ha.
  pose proof (land_shiftl_disjoint a b n Hn Ha) as Hd.
  rewrite <- Z.lxor_lor by exact Hd.
  rewrite <- Z.add_nocarry_lxor by exact Hd.
  rewrite Z.shiftl_mul_pow2 by exact Hn. reflexivity.
Qed.

Lemma genmask_field (v h l : Z) :
  0 <= l <= h ->
  Z.shiftr (Z.land v (GENMASK h l)) l = (v / 2 ^ l) mod 2 ^ (h - l + 1).
Proof.
  intros Hl. unfold GENMASK.
  rewrite Z.shiftr_land, Z.shiftr_shiftl_l by lia.
  rewrite Z.sub_diag, Z.shiftl_0_r, Z.land_ones by lia.
  rewrite Z.shiftr_div_pow2 by lia. reflexivity.
Qed.

Lemma dsrtior_decode (a b : Z) :
  0 <= a < 2 ^ 16 -> 0 <= b < 2 ^ 16 ->
  let v := u32 (Z.lor (Z.shiftl a DCMIPP_PxDSRTIOR_HRATIO_SHIFT)
                      (Z.shiftl b DCMIPP_PxDSRTIOR_VRATIO_SHIFT)) in
  Z.shiftr (Z.land v DCMIPP_PxDSRTIOR_HRATIO_MASK) DCMIPP_PxDSRTIOR_HRATIO_SHIFT = a
  /\ Z.shiftr (Z.land v DCMIPP_PxDSRTIOR_VRATIO_MASK) DCMIPP_PxDSRTIOR_VRATIO_SHIFT = b.
Proof.
  intros Ha Hb v. subst v.
  unfold DCMIPP_PxDSRTIOR_HRATIO_SHIFT, DCMIPP_PxDSRTIOR_VRATIO_SHIFT,
    DCMIPP_PxDSRTIOR_HRATIO_MASK, DCMIPP_PxDSRTIOR_VRATIO_MASK.
  rewrite Z.shiftl_0_r, lor_shiftl_add by lia.
  change (2 ^ 16) with 65536 in *.
  rewrite u32_small by (change (2 ^ 32) with 4294967296; lia).
  rewrite !genmask_field by lia.
  change (2 ^ 0) with 1. change (2 ^ (15 - 0 + 1)) with 65536.
  change (2 ^ 16) with 65536. change (2 ^ (31 - 16 + 1)) with 65536.
  rewrite Z.div_1_r. split; Z.div_mod_to_equations; lia.
Qed.

Lemma dscr_decode (a b : Z) :
  0 <= a < 2 ^ 10 -> 0 <= b < 2 ^ 10 ->
  let v := u32 (Z.lor (Z.lor (Z.shiftl a DCMIPP_PxDSCR_HDIV_SHIFT)
                             (Z.shiftl b DCMIPP_PxDSCR_VDIV_SHIFT))
                      DCMIPP_PxDSCR_ENABLE) in
  Z.shiftr (Z.land v DCMIPP_PxDSCR_HDIV_MASK) DCMIPP_PxDSCR_HDIV_SHIFT = a
  /\ Z.shiftr (Z.land v DCMIPP_PxDSCR_VDIV_MASK) DCMIPP_PxDSCR_VDIV_SHIFT = b
  /\ Z.testbit v 31 = true.
Proof.
  intros Ha Hb v. subst v.
  unfold DCMIPP_PxDSCR_HDIV_SHIFT, DCMIPP_PxDSCR_VDIV_SHIFT,
    DCMIPP_PxDSCR_HDIV_MASK, DCMIPP_PxDSCR_VDIV_MASK, DCMIPP_PxDSCR_ENABLE, BIT.
  change (2 ^ 10) with 1024 in *.
  rewrite Z.shiftl_0_r, (lor_shiftl_add a b 16)
    by (change (2 ^ 16) with 65536; lia).
  rewrite (lor_shiftl_add (a + b * 2 ^ 16) 1 31)
    by (change (2 ^ 16) with 65536; change (2 ^ 31) with 2147483648; lia).
  change (2 ^ 16) with 65536. change (2 ^ 31) with 2147483648.
  rewrite u32_small by (change (2 ^ 32) with 4294967296; lia).
  rewrite !genmask_field by lia.
  rewrite Z.testbit_true by lia.
  change (2 ^ 0) with 1. change (2 ^ (9 - 0 + 1)) with 1024.
  change (2 ^ 16) with 65536. change (2 ^ (25 - 16 + 1)) with 1024.
  change (2 ^ 31) with 2147483648.
  rewrite Z.div_1_r. repeat split; Z.div_mod_to_equations; lia.
Qed.

Lemma clamp_max_range (v m : Z) : 0 <= v -> 0 <= m -> 0 <= clamp_max v m <= m.
Proof.
  intros Hv Hm. unfold clamp_max. destruct (Z.ltb_spec m v); lia.
Qed.

Lemma udiv_nonneg (a b q : Z) : 0 <= a -> 0 <= b -> udiv a b = Some q -> 0 <= q.
Proof.
  intros Ha Hb. unfold udiv. destruct (Z.eqb_spec b 0); [discriminate|].
  intro H. injection H as <-. apply Z.div_pos; lia.
Qed.

Lemma decimation_post_nonneg (limit post_dec dec' post_dec' : Z) :
  0 <= post_dec ->
  decimation limit post_dec = Some (dec', post_dec') -> 0 <= post_dec'.
Proof.
  intros Hp H. unfold decimation in H.
  apply decimation_loop_spec in H; [|lia|lia|vm_compute; reflexivity].
  destruct H as (n & _ & _ & -> & _). apply Z.div_pos; lia.
Qed.

Lemma downscale_factors_field_ranges
    (crop_w crop_h compose_w compose_h : Z) (f : downscale) :
  0 <= crop_w -> 0 <= crop_h -> 0 <= compose_w -> 0 <= compose_h ->
  downscale_factors crop_w crop_h compose_w compose_h = Some f ->
  0 <= hratio f < 2 ^ 16 /\ 0 <= vratio f < 2 ^ 16
  /\ 0 <= hdiv f < 2 ^ 10 /\ 0 <= vdiv f < 2 ^ 10.
Proof.
  intros Hcw Hch Hw Hh. unfold downscale_factors.
  destruct (decimation _ crop_w) as [[hd hp]|] eqn:Hhd; cbn [obind]; [|discriminate].
  destruct (decimation _ crop_h) as [[vd vp]|] eqn:Hvd; cbn [obind]; [|discriminate].
  apply decimation_post_nonneg in Hhd; [|exact Hcw].
  apply decimation_post_nonneg in Hvd; [|exact Hch].
  destruct (udiv _ compose_w) as [hr|] eqn:E1; cbn [obind]; [|discriminate].
  destruct (udiv _ compose_h) as [vr|] eqn:E2; cbn [obind]; [|discriminate].
  destruct (udiv _ hp) as [hv|] eqn:E3; cbn [obind]; [|discriminate].
  destruct (udiv _ vp) as [vv|] eqn:E4; cbn [obind]; [|discriminate].
  apply udiv_nonneg in E1, E2, E3, E4; try assumption; try apply u32_range.
  intro H. injection H as <-. cbn [hratio vratio hdiv vdiv].
  unfold DCMIPP_PIXELPROC_HVRATIO_MAX, DCMIPP_PIXELPROC_HVDIV_MAX.
  pose proof (clamp_max_range hr 65535 E1 ltac:(lia)).
  pose proof (clamp_max_range vr 65535 E2 ltac:(lia)).
  pose proof (clamp_max_range hv 1023 E3 ltac:(lia)).
  pose proof (clamp_max_range vv 1023 E4 ltac:(lia)).
  change (2 ^ 16) with 65536. change (2 ^ 10) with 1024. lia.
Qed.

(** X15: when dcmipp_pixelproc_set_downscale returns (crop and compose
    sizes non-negative), its last three register writes are DSRTIOR, DSSZR
    and DSCR in that order, and the planner's values can be read back
    from them through the field masks: HRATIO and VRATIO from the DSRTIOR
    word, HDIV and VDIV from the DSCR word, whose enable bit 31 is set. *)
Theorem set_downscale_fields_read_back (d d' : dcmipp_pixelproc_device) :
  0 <= r_width (crop d) -> 0 <= r_height (crop d) ->
  0 <= r_width (compose d) -> 0 <= r_height (compose d) ->
  dcmipp_pixelproc_set_downscale d = Some d' ->
  exists f pre vr vs vd,
    downscale_factors (r_width (crop d)) (r_height (crop d))
      (r_width (compose d)) (r_height (compose d)) = Some f
    /\ regs d' = regs d ++ pre
                 ++ [reg_write (DCMIPP_PxDSRTIOR (pipe_id d)) vr;
                     reg_write (DCMIPP_PxDSSZR (pipe_id d)) vs;
                     reg_write (DCMIPP_PxDSCR (pipe_id d)) vd]
    /\ Z.shiftr (Z.land vr DCMIPP_PxDSRTIOR_HRATIO_MASK) DCMIPP_PxDSRTIOR_HRATIO_SHIFT
       = hratio f
    /\ Z.shiftr (Z.land vr DCMIPP_PxDSRTIOR_VRATIO_MASK) DCMIPP_PxDSRTIOR_VRATIO_SHIFT
       = vratio f
    /\ Z.shiftr (Z.land vd DCMIPP_PxDSCR_HDIV_MASK) DCMIPP_PxDSCR_HDIV_SHIFT = hdiv f
    /\ Z.shiftr (Z.land vd DCMIPP_PxDSCR_VDIV_MASK) DCMIPP_PxDSCR_VDIV_SHIFT = vdiv f
    /\ Z.testbit vd 31 = true.
Proof.
  intros Hcw Hch Hw Hh. unfold dcmipp_pixelproc_set_downscale.
  destruct (downscale_factors _ _ _ _) as [f|] eqn:Hf; cbn [obind]; [|discriminate].
  intro H. injection H as <-.
  destruct (downscale_factors_field_ranges _ _ _ _ f Hcw Hch Hw Hh Hf)
    as (Hhr & Hvr & Hhd & Hvd).
  destruct (dsrtior_decode (hratio f) (vratio f) Hhr Hvr) as [R1 R2].
  destruct (dscr_decode (hdiv f) (vdiv f) Hhd Hvd) as (D1 & D2 & D3).
  exists f.
  destruct (negb (hdec f =? 0) || negb (vdec f =? 0)).
  - eexists [_; _; _], _, _, _.
    split; [reflexivity|]. split.
    + cbn [regs reg_do pipe_id compose]. rewrite <- !app_assoc. reflexivity.
    + repeat split; assumption.
  - eexists [_; _], _, _, _.
    split; [reflexivity|]. split.
    + cbn [regs reg_do pipe_id compose]. rewrite <- !app_assoc. reflexivity.
    + repeat split; assumption.
Qed.

End RegisterFields.

Lemma set_downscale_fields_read_back_witness :
  let d := dcmipp_pixelproc_ent_init 1 in
  exists d',
    dcmipp_pixelproc_set_downscale d = Some d'
    /\ exists f pre vr vs vd,
         downscale_factors (r_width (crop d)) (r_height (crop d))
           (r_width (compose d)) (r_height (compose d)) = Some f
         /\ regs d' = regs d ++ pre
                      ++ [reg_write (DCMIPP_PxDSRTIOR (pipe_id d)) vr;
                          reg_write (DCMIPP_PxDSSZR (pipe_id d)) vs;
                          reg_write (DCMIPP_PxDSCR (pipe_id d)) vd]
         /\ Z.shiftr (Z.land vr DCMIPP_PxDSRTIOR_HRATIO_MASK)
              DCMIPP_PxDSRTIOR_HRATIO_SHIFT = hratio f
         /\ Z.shiftr (Z.land vr DCMIPP_PxDSRTIOR_VRATIO_MASK)
              DCMIPP_PxDSRTIOR_VRATIO_SHIFT = vratio f
         /\ Z.shiftr (Z.land vd DCMIPP_PxDSCR_HDIV_MASK) DCMIPP_PxDSCR_HDIV_SHIFT
            = hdiv f
         /\ Z.shiftr (Z.land vd DCMIPP_PxDSCR_VDIV_MASK) DCMIPP_PxDSCR_VDIV_SHIFT
            = vdiv f
         /\ Z.testbit vd 31 = true.
Proof.
  intro d. eexists. split.
  - vm_compute. reflexivity.
  - apply (set_downscale_fields_read_back d);
      try (vm_compute; discriminate).
    vm_compute. reflexivity.
Defined.

(** ** Frame intervals *)

Section FrameIntervals.

Context {platform : dcmipp_platform}.

(** X16: on an idle pipe, a source interval request that does not divide
    by zero returns 0, picks a frame-skip code between 0 and 3 and stores
    as source interval the sink interval with its numerator multiplied by
    2 ^ code (in 32 bits); the sink interval, formats, crop and compose are
    not touched, and the stored source interval is the one the interval
    enumeration reports at index code on the source pad. *)
Theorem s_frame_interval_src_achieved
    (d d' : dcmipp_pixelproc_device) (interval interval' : v4l2_fract)
    (ret fie_width fie_height : Z) (i0 : v4l2_fract) :
  streaming d = false ->
  dcmipp_pixelproc_s_frame_interval d PAD_SRC interval = Some (ret, d', interval') ->
  ret = 0
  /\ 0 <= frate d' <= 3
  /\ sink_interval d' = sink_interval d
  /\ src_interval d'
     = mk_fract (u32 (numerator (sink_interval d) * 2 ^ frate d'))
         (denominator (sink_interval d))
  /\ sink_fmt d' = sink_fmt d /\ src_fmt d' = src_fmt d
  /\ crop d' = crop d /\ compose d' = compose d
  /\ (fie_width <= DCMIPP_FRAME_MAX_WIDTH -> fie_height <= DCMIPP_FRAME_MAX_HEIGHT ->
      dcmipp_pixelproc_enum_frame_interval d' PAD_SRC (frate d')
        fie_width fie_height i0 = (0, src_interval d')).
Proof.
  intros Hs. unfold dcmipp_pixelproc_s_frame_interval. rewrite Hs.
  cbn [IS_SINK pad_index Z.eqb].
  destruct (udiv _ _) as [ratio|]; cbn [obind]; [|discriminate].
  intro H. injection H as <- <- _.
  unfold dcmipp_pixelproc_enum_frame_interval.
  destruct (8 <=? ratio); [|destruct (4 <=? ratio); [|destruct (2 <=? ratio)]];
    cbn; (repeat split; try lia);
    intros Hw Hh; apply Z.ltb_ge in Hw, Hh; rewrite Hw, Hh; reflexivity.
Qed.

(** X17: on an idle pipe whose sink interval and requested source interval
    have all four components between 1 and 65535, the request always
    succeeds and the code chosen rounds the requested slow-down to a power
    of two from below: unless the code is 0 the achieved interval
    2 ^ code * sink does not exceed the requested one, and unless the code
    is 3 the requested one is shorter than twice the achieved one. *)
Theorem s_frame_interval_src_rounds_down
    (d : dcmipp_pixelproc_device) (interval : v4l2_fract) :
  streaming d = false ->
  1 <= numerator (sink_interval d) <= 65535 ->
  1 <= denominator (sink_interval d) <= 65535 ->
  1 <= numerator interval <= 65535 ->
  1 <= denominator interval <= 65535 ->
  exists d',
    dcmipp_pixelproc_s_frame_interval d PAD_SRC interval = Some (0, d', interval)
    /\ 0 <= frate d' <= 3
    /\ (frate d' = 0
        \/ 2 ^ frate d' * (numerator (sink_interval d) * denominator interval)
           <= numerator interval * denominator (sink_interval d))
    /\ (frate d' = 3
        \/ numerator interval * denominator (sink_interval d)
           < 2 ^ (frate d' + 1)
             * (numerator (sink_interval d) * denominator interval)).
Proof.
  intros Hs Hsn Hsd Hrn Hrd.
  unfold dcmipp_pixelproc_s_frame_interval. rewrite Hs.
  destruct (Z.eqb_spec (numerator interval) 0) as [E|_]; [lia|].
  destruct (Z.eqb_spec (denominator interval) 0) as [E|_]; [lia|].
  cbn [orb IS_SINK pad_index Z.eqb].
  set (a := denominator (sink_interval d) * numerator interval).
  set (b := numerator (sink_interval d) * denominator interval).
  assert (Ha : 0 <= a < 2 ^ 32) by (change (2 ^ 32) with 4294967296; subst a; nia).
  assert (Hb : 0 < b < 2 ^ 32) by (change (2 ^ 32) with 4294967296; subst b; nia).
  rewrite (u32_small a), (u32_small b) by lia.
  unfold udiv. destruct (Z.eqb_spec b 0) as [E|_]; [lia|]. cbn [obind].
  pose proof (Z.mul_div_le a b ltac:(lia)) as Hlo.
  pose proof (Z.mul_succ_div_gt a b ltac:(lia)) as Hhi.
  replace (numerator interval * denominator (sink_interval d)) with a
    by (subst a; ring).
  eexists. split; [reflexivity|].
  cbn [frate set_frate set_src_interval].
  destruct (Z.leb_spec 8 (a / b));
    [|destruct (Z.leb_spec 4 (a / b)); [|destruct (Z.leb_spec 2 (a / b))]].
  - change (2 ^ 3) with 8. split; [lia|]. split; [right; nia|left; reflexivity].
  - change (2 ^ 2) with 4. change (2 ^ (2 + 1)) with 8.
    split; [lia|]. split; right; nia.
  - change (2 ^ 1) with 2. change (2 ^ (1 + 1)) with 4.
    split; [lia|]. split; right; nia.
  - change (2 ^ (0 + 1)) with 2.
    split; [lia|]. split; [left; reflexivity|right; nia].
Qed.

(** X18: a sink interval with non-zero numerator and denominator stays so
    through every frame interval request that returns, on either pad,
    whatever is requested and whether the pipe streams or not. *)
Theorem s_frame_interval_keeps_sink_nonzero
    (d d' : dcmipp_pixelproc_device) (p : pad) (interval interval' : v4l2_fract)
    (ret : Z) :
  numerator (sink_interval d) <> 0 ->
  denominator (sink_interval d) <> 0 ->
  dcmipp_pixelproc_s_frame_interval d p interval = Some (ret, d', interval') ->
  numerator (sink_interval d') <> 0 /\ denominator (sink_interval d') <> 0.
Proof.
  intros Hn Hd. unfold dcmipp_pixelproc_s_frame_interval.
  destruct (streaming d).
  { intro H. injection H as _ <- _. split; assumption. }
  destruct p; cbn [IS_SINK pad_index Z.eqb].
  - destruct (Z.eqb_spec (numerator interval) 0) as [E1|E1];
      destruct (Z.eqb_spec (denominator interval) 0) as [E2|E2];
      cbn [orb]; intro H; injection H as _ <- _; cbn; split; assumption.
  - destruct (udiv _ _) as [ratio|]; cbn [obind]; [|discriminate].
    intro H. injection H as _ <- _. cbn. split; assumption.
Qed.

End FrameIntervals.

Lemma s_frame_interval_src_achieved_witness :
  let d := dcmipp_pixelproc_ent_init 1 in
  exists d',
    dcmipp_pixelproc_s_frame_interval d PAD_SRC (mk_fract 5 30)
    = Some (0, d', mk_fract 5 30)
    /\ 0 <= frate d' <= 3
    /\ sink_interval d' = sink_interval d
    /\ src_interval d'
       = mk_fract (u32 (numerator (sink_interval d) * 2 ^ frate d'))
           (denominator (sink_interval d))
    /\ sink_fmt d' = sink_fmt d /\ src_fmt d' = src_fmt d
    /\ crop d' = crop d /\ compose d' = compose d
    /\ (640 <= REF_FRAME_MAX_WIDTH -> 480 <= REF_FRAME_MAX_HEIGHT ->
        dcmipp_pixelproc_enum_frame_interval (platform := ref_platform) d' PAD_SRC
          (frate d') 640 480 (mk_fract 0 0) = (0, src_interval d')).
Proof.
  intro d. eexists. split.
  - vm_compute. reflexivity.
  - apply (s_frame_interval_src_achieved (platform := ref_platform) d _
             (mk_fract 5 30) (mk_fract 5 30) 0 640 480 (mk_fract 0 0)).
    + reflexivity.
    + vm_compute. reflexivity.
Defined.

Lemma s_frame_interval_src_rounds_down_witness :
  exists d',
    dcmipp_pixelproc_s_frame_interval (dcmipp_pixelproc_ent_init 1) PAD_SRC
      (mk_fract 5 30) = Some (0, d', mk_fract 5 30)
    /\ 0 <= frate d' <= 3
    /\ (frate d' = 0 \/ 2 ^ frate d' * (1 * 30) <= 5 * 30)
    /\ (frate d' = 3 \/ 5 * 30 < 2 ^ (frate d' + 1) * (1 * 30)).
Proof.
  apply (s_frame_interval_src_rounds_down (dcmipp_pixelproc_ent_init 1)
           (mk_fract 5 30)); [reflexivity | | | | ];
    vm_compute; (split; discriminate).
Defined.

Lemma s_frame_interval_keeps_sink_nonzero_witness :
  exists d',
    dcmipp_pixelproc_s_frame_interval (dcmipp_pixelproc_ent_init 1) PAD_SINK
      (mk_fract 0 25) = Some (0, d', mk_fract 1 30)
    /\ numerator (sink_interval d') <> 0 /\ denominator (sink_interval d') <> 0.
Proof.
  eexists. split.
  - vm_compute. reflexivity.
  - apply (s_frame_interval_keeps_sink_nonzero (dcmipp_pixelproc_ent_init 1) _
             PAD_SINK (mk_fract 0 25) (mk_fract 1 30) 0).
    + discriminate.
    + discriminate.
    + vm_compute. reflexivity.
Defined.

(** ** Pipe identity *)

Section PipeIdentity.

Import String.

Lemma strstr_found (name needle : string) :
  needle <> EmptyString ->
  (PipeName.occurs needle name <-> PipeName.strstr name needle <> None).
Proof.
  intro Hne. unfold PipeName.occurs, PipeName.strstr. split.
  - intros [m Hm] Hnone.
    apply (index_correct3 0 m needle name Hnone Hne); [apply Nat.le_0_l|exact Hm].
  - intro H. destruct (index 0 needle name) as [m|] eqn:E; [|contradiction].
    exists m. apply (index_correct1 0 m needle name E).
Qed.

(** X19: the pipe identifier is 1 exactly for the entity names that
    contain main, 2 for those that contain aux but not main, and -EINVAL
    for all others; construction by name accordingly yields the default
    device of pipe 1 or 2, or fails with -EIO when the name contains
    neither. *)
Theorem pipe_id_by_name (name : string) :
  (PipeName.occurs "main" name ->
   PipeName.dcmipp_name_to_pipe_id name = 1
   /\ PipeName.dcmipp_pixelproc_ent_init_name name = inr (dcmipp_pixelproc_ent_init 1))
  /\ (~ PipeName.occurs "main" name -> PipeName.occurs "aux" name ->
      PipeName.dcmipp_name_to_pipe_id name = 2
      /\ PipeName.dcmipp_pixelproc_ent_init_name name
         = inr (dcmipp_pixelproc_ent_init 2))
  /\ (~ PipeName.occurs "main" name -> ~ PipeName.occurs "aux" name ->
      PipeName.dcmipp_name_to_pipe_id name = - EINVAL
      /\ PipeName.dcmipp_pixelproc_ent_init_name name = inl (- EIO)).
Proof.
  pose proof (strstr_found name "main" ltac:(discriminate)) as Hm.
  pose proof (strstr_found name "aux" ltac:(discriminate)) as Ha.
  unfold PipeName.dcmipp_pixelproc_ent_init_name, PipeName.dcmipp_name_to_pipe_id.
  destruct (PipeName.strstr name "main") as [m|];
    destruct (PipeName.strstr name "aux") as [a|];
    (split; [|split]); intros;
    try (split; reflexivity);
    try (exfalso; tauto);
    try (exfalso; match goal with
                  | H : PipeName.occurs _ _ |- _ =>
                      first [apply Hm in H | apply Ha in H]; congruence
                  end).
  all: exfalso;
    match goal with
    | H : ~ PipeName.occurs _ _ |- _ =>
        apply H; first [apply Hm | apply Ha]; discriminate
    end.
Qed.

Lemma pipe_id_by_name_witness :
  PipeName.dcmipp_name_to_pipe_id "dcmipp_main_postproc" = 1
  /\ PipeName.dcmipp_pixelproc_ent_init_name "dcmipp_main_postproc"
     = inr (dcmipp_pixelproc_ent_init 1).
Proof.
  apply (proj1 (pipe_id_by_name "dcmipp_main_postproc")).
  exists 7%nat. reflexivity.
Defined.

End PipeIdentity.

(** ** Enumerations and stream start after a format change *)

Section EnumerationFacts.

Context {platform : dcmipp_platform}.

(** X20: the interval enumeration answers 0 exactly when the index is
    below 1 on the sink pad or below 4 on the source pad and the given
    frame size does not exceed the frame maximum; it then reports the sink
    interval on the sink pad and, on the source pad, the sink interval
    with its numerator multiplied by 2 ^ index (in 32 bits).  Otherwise
    it returns -EINVAL and leaves the caller's interval alone. *)
Theorem enum_frame_interval_range
    (d : dcmipp_pixelproc_device) (p : pad) (index fie_width fie_height : Z)
    (i0 : v4l2_fract) :
  0 <= index ->
  let res := dcmipp_pixelproc_enum_frame_interval d p index fie_width fie_height i0 in
  let ok := index < (if IS_SRC p then 4 else 1)
            /\ fie_width <= DCMIPP_FRAME_MAX_WIDTH
            /\ fie_height <= DCMIPP_FRAME_MAX_HEIGHT in
  (ok ->
   res = (0, if IS_SINK p then sink_interval d
             else mk_fract (u32 (numerator (sink_interval d) * 2 ^ index))
                    (denominator (sink_interval d))))
  /\ (~ ok -> res = (- EINVAL, i0)).
Proof.
  intros Hi res ok. subst res ok. unfold dcmipp_pixelproc_enum_frame_interval.
  change (Z.of_nat (length dcmipp_frates)) with 4.
  destruct (Z.leb_spec (if IS_SRC p then 4 else 1) index) as [H1|H1];
    destruct (Z.ltb_spec DCMIPP_FRAME_MAX_WIDTH fie_width) as [H2|H2];
    destruct (Z.ltb_spec DCMIPP_FRAME_MAX_HEIGHT fie_height) as [H3|H3];
    cbn [orb]; split; intro H; try reflexivity; try lia.
  destruct p; cbn [IS_SINK IS_SRC pad_index Z.eqb negb] in *; [reflexivity|].
  assert (Hcases : index = 0 \/ index = 1 \/ index = 2 \/ index = 3) by lia.
  destruct Hcases as [-> | [-> | [-> | ->]]]; reflexivity.
Qed.

Lemma pix_map_codes_nodup (p : pad) : NoDup (map pm_code (pix_map_list p)).
Proof.
  destruct p; cbn;
    repeat (constructor;
            [cbn; intro Hin;
             repeat (destruct Hin as [Hin|Hin]; [discriminate Hin|]);
             exact Hin|]);
    constructor.
Qed.

(** X21: the code enumeration answers 0 exactly for the indexes below the
    table size, 2 on the sink pad and 14 on the source pad, and otherwise
    returns -EINVAL leaving the caller's code alone; two different indexes
    never give the same code. *)
Theorem enum_mbus_code_range_and_distinct (p : pad) (i j code_in : Z) :
  0 <= i -> 0 <= j ->
  (fst (dcmipp_pixelproc_enum_mbus_code p i code_in) = 0
   <-> i < (if IS_SRC p then 14 else 2))
  /\ (fst (dcmipp_pixelproc_enum_mbus_code p i code_in) <> 0 ->
      dcmipp_pixelproc_enum_mbus_code p i code_in = (- EINVAL, code_in))
  /\ (fst (dcmipp_pixelproc_enum_mbus_code p i code_in) = 0 ->
      dcmipp_pixelproc_enum_mbus_code p i code_in
      = dcmipp_pixelproc_enum_mbus_code p j code_in ->
      i = j).
Proof.
  intros Hi Hj.
  unfold dcmipp_pixelproc_enum_mbus_code, dcmipp_pixelproc_pix_map_by_index.
  assert (Hlen : Z.of_nat (length (pix_map_list p)) = if IS_SRC p then 14 else 2)
    by (destruct p; reflexivity).
  cbv zeta. rewrite Hlen.
  destruct (Z.leb_spec (if IS_SRC p then 14 else 2) i) as [Hge|Hlt].
  - cbn [fst]. repeat split; try discriminate; try lia; try reflexivity.
  - destruct (nth_error (pix_map_list p) (Z.to_nat i)) as [e|] eqn:Ei.
    2:{ apply nth_error_None in Ei. lia. }
    cbn [fst]. split; [split; [intros _; exact Hlt|reflexivity]|].
    split; [intro H; exfalso; apply H; reflexivity|].
    intros _.
    destruct (Z.leb_spec (if IS_SRC p then 14 else 2) j) as [Hgej|Hltj];
      [discriminate|].
    destruct (nth_error (pix_map_list p) (Z.to_nat j)) as [e'|] eqn:Ej;
      [|discriminate].
    intro H. injection H as Hc.
    assert (Hij : Z.to_nat i = Z.to_nat j).
    { pose proof (pix_map_codes_nodup p) as Hnd.
      rewrite NoDup_nth_error in Hnd. apply Hnd.
      - rewrite length_map. lia.
      - rewrite !nth_error_map, Ei, Ej. cbn. congruence. }
    lia.
Qed.

(** X22: with a colorimetry clamp that rewrites colorimetry fields only
    and frame limits between 1 and 2^19 - 1, after every successful
    set_fmt on the sink pad with which = ACTIVE the planner sees compose
    equal to crop: it returns the identity factors, and starting the
    stream returns instead of dividing by zero. *)
Theorem stream_start_safe_after_sink_format
    (d : dcmipp_pixelproc_device) (st : v4l2_subdev_state)
    (format : v4l2_mbus_framefmt) (enable : Z) :
  colorimetry_only ->
  1 <= DCMIPP_FRAME_MIN_WIDTH <= DCMIPP_FRAME_MAX_WIDTH ->
  DCMIPP_FRAME_MAX_WIDTH < 2 ^ 19 ->
  1 <= DCMIPP_FRAME_MIN_HEIGHT <= DCMIPP_FRAME_MAX_HEIGHT ->
  DCMIPP_FRAME_MAX_HEIGHT < 2 ^ 19 ->
  let r := dcmipp_pixelproc_set_fmt d st PAD_SINK V4L2_SUBDEV_FORMAT_ACTIVE format in
  res_ret r = 0 ->
  let d' := res_dev r in
  downscale_factors (r_width (crop d')) (r_height (crop d'))
    (r_width (compose d')) (r_height (compose d'))
  = Some (mk_downscale 0 0 8192 8192 1023 1023)
  /\ exists ret d'', dcmipp_pixelproc_s_stream d' enable = Some (ret, d'').
Proof.
  intros Hc Hw Hw19 Hh Hh19 r Hret d'.
  assert (Hplan : downscale_factors (r_width (crop d')) (r_height (crop d'))
                    (r_width (compose d')) (r_height (compose d'))
                  = Some (mk_downscale 0 0 8192 8192 1023 1023)).
  { apply set_fmt_active_ok_not_streaming in Hret. subst d' r.
    unfold dcmipp_pixelproc_set_fmt. rewrite Hret. cbn.
    destruct (adjust_fmt_fields format PAD_SINK Hc) as (_ & Hwd & Hht & _).
    cbv zeta in Hwd, Hht. rewrite Hwd, Hht.
    change (2 ^ 19) with 524288 in *.
    assert (H32 : 2 ^ 32 = 4294967296) by reflexivity.
    assert (Hbw : DCMIPP_FRAME_MIN_WIDTH
                  <= clamp_t_u32 (width format) DCMIPP_FRAME_MIN_WIDTH
                       DCMIPP_FRAME_MAX_WIDTH
                  <= DCMIPP_FRAME_MAX_WIDTH)
      by (apply clamp_t_u32_bounds; lia).
    assert (Hbh : DCMIPP_FRAME_MIN_HEIGHT
                  <= clamp_t_u32 (height format) DCMIPP_FRAME_MIN_HEIGHT
                       DCMIPP_FRAME_MAX_HEIGHT
                  <= DCMIPP_FRAME_MAX_HEIGHT)
      by (apply clamp_t_u32_bounds; lia).
    apply downscale_factors_same_size; lia. }
  split; [exact Hplan|].
  eapply s_stream_returns_when_planned. exact Hplan.
Qed.

End EnumerationFacts.

Lemma enum_frame_interval_range_witness :
  dcmipp_pixelproc_enum_frame_interval (platform := ref_platform)
    (dcmipp_pixelproc_ent_init 1) PAD_SRC 2 640 480 (mk_fract 0 0)
  = (0, mk_fract 4 30)
  /\ dcmipp_pixelproc_enum_frame_interval (platform := ref_platform)
       (dcmipp_pixelproc_ent_init 1) PAD_SINK 1 640 480 (mk_fract 0 0)
     = (- EINVAL, mk_fract 0 0).
Proof.
  split.
  - apply (proj1 (enum_frame_interval_range (platform := ref_platform)
                    (dcmipp_pixelproc_ent_init 1) PAD_SRC 2 640 480 (mk_fract 0 0)
                    ltac:(lia))).
    vm_compute. repeat split; discriminate.
  - apply (proj2 (enum_frame_interval_range (platform := ref_platform)
                    (dcmipp_pixelproc_ent_init 1) PAD_SINK 1 640 480 (mk_fract 0 0)
                    ltac:(lia))).
    vm_compute. intros [H _]. discriminate H.
Defined.

Lemma enum_mbus_code_range_and_distinct_witness :
  (fst (dcmipp_pixelproc_enum_mbus_code PAD_SRC 13 0) = 0 <-> 13 < 14)
  /\ (fst (dcmipp_pixelproc_enum_mbus_code PAD_SRC 13 0) <> 0 ->
      dcmipp_pixelproc_enum_mbus_code PAD_SRC 13 0 = (- EINVAL, 0))
  /\ (fst (dcmipp_pixelproc_enum_mbus_code PAD_SRC 13 0) = 0 ->
      dcmipp_pixelproc_enum_mbus_code PAD_SRC 13 0
      = dcmipp_pixelproc_enum_mbus_code PAD_SRC 13 0 ->
      13 = 13).
Proof.
  apply (enum_mbus_code_range_and_distinct PAD_SRC 13 13 0); lia.
Defined.

Lemma stream_start_safe_after_sink_format_witness :
  let d' := res_dev (dcmipp_pixelproc_set_fmt (platform := ref_platform)
                       (dcmipp_pixelproc_ent_init 2) ref_sd_state PAD_SINK
                       V4L2_SUBDEV_FORMAT_ACTIVE yuv_800x600) in
  downscale_factors (r_width (crop d')) (r_height (crop d'))
    (r_width (compose d')) (r_height (compose d'))
  = Some (mk_downscale 0 0 8192 8192 1023 1023)
  /\ exists ret d'',
       dcmipp_pixelproc_s_stream (platform := ref_platform) d' 1 = Some (ret, d'').
Proof.
  apply (stream_start_safe_after_sink_format (platform := ref_platform)
           (dcmipp_pixelproc_ent_init 2) ref_sd_state yuv_800x600 1
           ref_platform_colorimetry_only);
    try reflexivity; vm_compute; (split; discriminate).
Defined.
